(** * NovaAgent OCR services: a shallow embedding and its properties

    The development embeds the two FastAPI services of the repository,
    [server/ocr_service.py] (the main service: PyMuPDF, PaddleOCR,
    pytesseract, pdfplumber) and [server/simple_ocr_service.py] (the
    Tesseract-only service), and settles the properties of the design
    document against them.

    Modelling conventions.
    - Python [str] is [string]; every character is read as one code point
      below 256.
    - Python [float] is modelled by exact rationals extended with the two
      infinities and NaN ([pyfloat]); rounding and overflow are not
      modelled.
    - The external engines (PyMuPDF, PIL, PaddleOCR, pytesseract,
      pdfplumber) are black boxes collected in a record [Env]; each call may
      return or raise.
    - Code that calls engines runs in a small monad [M] that carries the
      ordered log of engine calls together with a value or a raised
      exception. *)

From Stdlib Require Import String Ascii List Bool Arith ZArith QArith Qminmax Lia Sorted.
Import ListNotations.

Local Close Scope Q_scope.
Local Open Scope string_scope.
Local Open Scope list_scope.
Local Open Scope nat_scope.

(* ===================================================================== *)
(** ** Python strings *)
(* ===================================================================== *)

Module Py.

(** [str.isspace] on one code point below 256: TAB..CR, FS..US, SPACE,
    NEL (0x85) and NBSP (0xA0). *)
Definition isspace (c : ascii) : bool :=
  let n := nat_of_ascii c in
  ((9 <=? n) && (n <=? 13)) || ((28 <=? n) && (n <=? 32))
  || (n =? 133) || (n =? 160).

Fixpoint lstrip (s : string) : string :=
  match s with
  | EmptyString => EmptyString
  | String c r => if isspace c then lstrip r else s
  end.

Fixpoint rstrip (s : string) : string :=
  match s with
  | EmptyString => EmptyString
  | String c r =>
      match rstrip r with
      | EmptyString => if isspace c then EmptyString else String c EmptyString
      | r' => String c r'
      end
  end.

(** [s.strip()] *)
Definition strip (s : string) : string := rstrip (lstrip s).

(** Truthiness of a [str]: non-empty. *)
Definition truthy (s : string) : bool :=
  match s with EmptyString => false | _ => true end.

(** [str.lower] on one code point below 256: A-Z and the Latin-1 capitals
    (0xC0-0xDE except the multiplication sign 0xD7) move up by 32. *)
Definition lower_char (c : ascii) : ascii :=
  let n := nat_of_ascii c in
  if ((65 <=? n) && (n <=? 90))
     || ((192 <=? n) && (n <=? 222) && negb (n =? 215))
  then ascii_of_nat (n + 32) else c.

Fixpoint lower (s : string) : string :=
  match s with
  | EmptyString => EmptyString
  | String c r => String (lower_char c) (lower r)
  end.

(** [s.startswith(p)] *)
Definition startswith (s p : string) : bool := String.prefix p s.

Fixpoint rev_string (s : string) : string :=
  match s with
  | EmptyString => EmptyString
  | String c r => (rev_string r ++ String c EmptyString)%string
  end.

(** [s.endswith(p)] *)
Definition endswith (s p : string) : bool :=
  String.prefix (rev_string p) (rev_string s).

(** [s.endswith((p1, ..., pn))] *)
Definition endswith_any (s : string) (ps : list string) : bool :=
  existsb (endswith s) ps.

(** [sep.join(parts)] *)
Fixpoint join (sep : string) (parts : list string) : string :=
  match parts with
  | [] => EmptyString
  | [p] => p
  | p :: rest => (p ++ sep ++ join sep rest)%string
  end.

(** [len(s)] *)
Definition len (s : string) : nat := String.length s.

(** The one-character string "\n". *)
Definition NL : string := String (ascii_of_nat 10) EmptyString.

End Py.

(* ===================================================================== *)
(** ** Python floats and [float(...)] *)
(* ===================================================================== *)

(** A Python [float]: an exact rational, an infinity or NaN. *)
Inductive pyfloat : Type :=
| Fin (q : Q)
| PosInf
| NegInf
| NaN.

(** A value read out of an engine table whose dynamic type is not fixed:
    pytesseract leaves a column entry as [int], [float] or [str]. *)
Inductive pyval : Type :=
| VInt (z : Z)
| VFloat (f : pyfloat)
| VStr (s : string)
| VNone.

Module PyFloat.

(** [a > b] for a float [a] and a finite [b]; false on NaN. *)
Definition gtb (a : pyfloat) (b : Q) : bool :=
  match a with
  | Fin q => negb (Qle_bool q b)
  | PosInf => true
  | NegInf => false
  | NaN => false
  end.

(** [a / d] for a finite positive [d]. *)
Definition div (a : pyfloat) (d : Q) : pyfloat :=
  match a with
  | Fin q => Fin (q / d)
  | other => other
  end.

(** [lo <= a <= hi], as a proposition; fails on infinities and NaN. *)
Definition within (lo hi : Q) (a : pyfloat) : Prop :=
  match a with
  | Fin q => (lo <= q)%Q /\ (q <= hi)%Q
  | _ => False
  end.


Definition is_digit (c : ascii) : bool :=
  let n := nat_of_ascii c in (48 <=? n) && (n <=? 57).

Definition digit_val (c : ascii) : Z := Z.of_nat (nat_of_ascii c - 48).

Definition is_underscore (c : ascii) : bool := nat_of_ascii c =? 95.

(** Digit-group underscores: each "_" must stand between two digits and is
    dropped; any other underscore makes the literal invalid.  [prev] tells
    whether the previous character was a digit. *)
Fixpoint drop_underscores (prev : bool) (s : string) : option string :=
  match s with
  | EmptyString => Some EmptyString
  | String c r =>
      if is_underscore c then
        match r with
        | String d _ =>
            if prev && is_digit d then drop_underscores false r else None
        | EmptyString => None
        end
      else
        match drop_underscores (is_digit c) r with
        | Some r' => Some (String c r')
        | None => None
        end
  end.

(** Longest prefix of decimal digits: its value, its length, and the rest. *)
Fixpoint take_digits (acc : Z) (n : nat) (s : string) : Z * nat * string :=
  match s with
  | String c r =>
      if is_digit c then take_digits (10 * acc + digit_val c)%Z (S n) r
      else (acc, n, s)
  | EmptyString => (acc, n, s)
  end.

(** Optional sign: [true] for "-". *)
Definition take_sign (s : string) : bool * string :=
  match s with
  | String "-" r => (true, r)
  | String "+" r => (false, r)
  | _ => (false, s)
  end.

(** [m * 10^e] as a rational. *)
Definition scale10 (m : Z) (e : Z) : Q :=
  match e with
  | Z0 => inject_Z m
  | Zpos p => inject_Z (m * Z.pow_pos 10 p)
  | Zneg p => Qmake m (Pos.pow 10 p)
  end.

(** Optional exponent part "e[+-]ddd"; a malformed exponent is left
    unconsumed, which makes the whole literal invalid. *)
Definition take_exponent (s : string) : Z * string :=
  match s with
  | String c r =>
      if (nat_of_ascii c =? 101) || (nat_of_ascii c =? 69) then
        let '(neg, r1) := take_sign r in
        let '(e, n, r2) := take_digits 0 0 r1 in
        if n =? 0 then (0%Z, s)
        else ((if neg then - e else e)%Z, r2)
      else (0%Z, s)
  | EmptyString => (0%Z, s)
  end.

(** The decimal grammar of [float(str)]:
    [sign] digits ["." digits] [exponent], with at least one digit. *)
Definition parse_decimal (s : string) : option Q :=
  let '(neg, s0) := take_sign s in
  let '(ip, n1, s1) := take_digits 0 0 s0 in
  let '(m, n2, s2) :=
    match s1 with
    | String "." r => let '(m, n2, r') := take_digits ip 0 r in (m, n2, r')
    | _ => (ip, 0, s1)
    end in
  if (n1 + n2 =? 0) then None
  else
    let '(e, s3) := take_exponent s2 in
    match s3 with
    | EmptyString =>
        let q := scale10 m (e - Z.of_nat n2) in
        Some (if neg then Qopp q else q)
    | _ => None
    end.

(** [float(s)] for a string: surrounding whitespace is ignored, then
    "inf", "infinity" and "nan" (any case, optional sign) or a decimal
    literal; [None] stands for [ValueError]. *)
Definition of_string (s : string) : option pyfloat :=
  let t := Py.strip s in
  let '(neg, body) := take_sign t in
  let lb := Py.lower body in
  if (lb =? "inf")%string || (lb =? "infinity")%string
  then Some (if neg then NegInf else PosInf)
  else if (lb =? "nan")%string then Some NaN
  else
    match drop_underscores false t with
    | None => None
    | Some t' =>
        match parse_decimal t' with
        | Some q => Some (Fin q)
        | None => None
        end
    end.

(** [float(v)]; [None] stands for [ValueError] or [TypeError]. *)
Definition of_val (v : pyval) : option pyfloat :=
  match v with
  | VInt z => Some (Fin (inject_Z z))
  | VFloat f => Some f
  | VStr s => of_string s
  | VNone => None
  end.

(** [v / 100.0]; [None] stands for [TypeError] (a [str] or [None]
    operand). *)
Definition val_div (v : pyval) (d : Q) : option pyfloat :=
  match v with
  | VInt z => Some (Fin (inject_Z z / d))
  | VFloat f => Some (div f d)
  | VStr _ => None
  | VNone => None
  end.

End PyFloat.


(* ===================================================================== *)
(** ** Exceptions, engine calls and the call-logging monad *)
(* ===================================================================== *)

(** A raised Python exception, with its [str(e)]. *)
Inductive exn : Type := Exception (msg : string).

Definition exn_str (e : exn) : string := match e with Exception m => m end.

(** The outcome of an operation that may raise. *)
Inductive result (A : Type) : Type :=
| Ok (a : A)
| Raise (e : exn).
Arguments Ok {A} a.
Arguments Raise {A} e.

(** Raw bytes of an upload or of a rendered page. *)
Definition bytes : Type := string.

(** A decoded RGB raster ([PIL.Image]). *)
Inductive Image : Type := RGBImage (pixels : bytes).

(** The two table-detection settings passed to [page.find_tables]. *)
Inductive Strategy : Type :=
| LinesStrategy   (* vertical_strategy = horizontal_strategy = "lines" *)
| TextStrategy.   (* vertical_strategy = horizontal_strategy = "text" *)

(** One call into an external engine. *)
Inductive Call : Type :=
| CallFitzOpen (file_bytes : bytes)          (* fitz.open *)
| CallImageOpen (data : bytes)               (* PIL Image.open(...).convert *)
| CallPaddle (img : Image)                   (* PaddleOCR.ocr *)
| CallTesseract (img : Image)                (* pytesseract.image_to_data *)
| CallPlumberOpen (file_bytes : bytes)       (* pdfplumber.open *)
| CallFindTables (p_idx : nat) (s : Strategy). (* page.find_tables *)

(** A computation: the engine calls made, in order, and either a value or
    the exception that escaped. *)
Definition M (A : Type) : Type := list Call * result A.

Definition ret {A} (a : A) : M A := ([], Ok a).

Definition raise {A} (e : exn) : M A := ([], Raise e).

Definition bind {A B} (m : M A) (f : A -> M B) : M B :=
  match m with
  | (l, Ok a) => let '(l', r) := f a in (l ++ l', r)
  | (l, Raise e) => (l, Raise e)
  end.

(** An operation that may raise but calls no engine. *)
Definition lift {A} (r : result A) : M A := ([], r).

(** An engine call and its outcome. *)
Definition call {A} (c : Call) (r : result A) : M A := ([c], r).

(** [try: m  except Exception: h] *)
Definition try_except {A} (m : M A) (h : exn -> M A) : M A :=
  match m with
  | (l, Raise e) => let '(l', r) := h e in (l ++ l', r)
  | (l, Ok a) => (l, Ok a)
  end.

Declare Scope py_scope.
Delimit Scope py_scope with py.
Notation "x <- m ;; k" := (bind m (fun x => k))
  (at level 61, m at next level, right associativity) : py_scope.
Notation "' pat <- m ;; k" := (bind m (fun x => match x with pat => k end))
  (at level 61, pat pattern, m at next level, right associativity) : py_scope.
Local Open Scope py_scope.

(** [for x in xs: st = body(st, x)], stopping at the first exception. *)
Fixpoint for_each {S X : Type} (xs : list X) (st : S)
    (body : S -> X -> M S) : M S :=
  match xs with
  | [] => ret st
  | x :: rest => st' <- body st x ;; for_each rest st' body
  end.

(** [enumerate(xs, start)] *)
Fixpoint enumerate {X : Type} (start : nat) (xs : list X) : list (nat * X) :=
  match xs with
  | [] => []
  | x :: rest => (start, x) :: enumerate (S start) rest
  end.

(** [xs[i]], raising [IndexError] out of range. *)
Definition index {X : Type} (xs : list X) (i : nat) : result X :=
  match nth_error xs i with
  | Some x => Ok x
  | None => Raise (Exception "list index out of range")
  end.

Definition log_of {A} (m : M A) : list Call := fst m.
Definition outcome {A} (m : M A) : result A := snd m.

(* ===================================================================== *)
(** ** Data model *)
(* ===================================================================== *)

(** A text block of the response: the dict with keys "text", "confidence",
    "bbox" and, once set, "page". *)
Record TextBlock : Type := mkBlock {
  b_text : string;
  b_confidence : pyfloat;
  b_bbox : list Q;
  b_page : option nat
}.

(** [b["page"] = p] *)
Definition set_page (p : nat) (b : TextBlock) : TextBlock :=
  mkBlock (b_text b) (b_confidence b) (b_bbox b) (Some p).

(** A table of the response: keys "page", "rows", "strategy". *)
Record Table : Type := mkTable {
  t_page : nat;
  t_rows : list (list string);
  t_strategy : string
}.

(** A span of PyMuPDF's [page.get_text("dict")]. *)
Record Span : Type := mkSpan {
  span_text : string;
  span_bbox : Q * Q * Q * Q
}.

(** [page.get_text("dict")["blocks"]]: blocks of lines of spans; a block
    without a "lines" key (an image block) is the empty list. *)
Definition TextDict : Type := list (list (list Span)).

(** A page of a [fitz.Document], by what the service asks of it. *)
Record Page : Type := mkPage {
  get_text_text : result string;      (* page.get_text("text") *)
  get_text_dict : result TextDict;    (* page.get_text("dict") *)
  get_pixmap_png : result bytes       (* page.get_pixmap(...).tobytes("png") *)
}.

(** A [fitz.Document]: its pages in order. *)
Record Document : Type := mkDocument { doc_pages : list Page }.

Definition page_count (doc : Document) : nat := length (doc_pages doc).

(** One line of PaddleOCR's result: a quadrilateral and (text, score). *)
Record PaddleLine : Type := mkPaddleLine {
  pl_quad : (Q * Q) * (Q * Q) * (Q * Q) * (Q * Q);
  pl_text : string;
  pl_conf : pyval
}.

(** pytesseract's [image_to_data(..., Output.DICT)]: one list per column. *)
Record TSV : Type := mkTSV {
  tsv_text : list string;
  tsv_conf : list pyval;
  tsv_left : list Z;
  tsv_top : list Z;
  tsv_width : list Z;
  tsv_height : list Z
}.

(** A table object of pdfplumber. *)
Record PlumberTable : Type := mkPlumberTable {
  pt_cells : list (Q * Q * Q * Q);
  pt_extract : result (list (list (option string)))   (* t.extract() *)
}.

(** A page of pdfplumber; a found table may be a falsy placeholder. *)
Record PlumberPage : Type := mkPlumberPage {
  find_tables : Strategy -> result (list (option PlumberTable))
}.

(** The process-wide capabilities and the engines behind them. *)
Record Env : Type := mkEnv {
  PADDLE_OK : bool;
  TESSERACT_OK : bool;
  PLUMBER_OK : bool;
  fitz_open : bytes -> result Document;
  image_open : bytes -> result Image;
  (* ocr.ocr(arr, cls=True)[0] *)
  paddle_ocr : Image -> result (option (list PaddleLine));
  image_to_data : Image -> result TSV;
  (* pdfplumber.open(...).pages *)
  plumber_open : bytes -> result (list PlumberPage)
}.

(** An uploaded file. *)
Record UploadFile : Type := mkUpload {
  filename : option string;
  content_type : option string;
  read : result bytes
}.

(** [ExtractResponse] (pydantic model). *)
Record ExtractResponse : Type := mkResponse {
  file_name : string;
  mime_type : option string;
  pages : nat;
  is_digital_pdf : option bool;
  text : string;
  blocks : list TextBlock;
  tables : list Table;
  metadata_engine : option string    (* metadata["engine"] *)
}.

(** The body of a [JSONResponse]. *)
Inductive Content : Type :=
| Extraction (r : ExtractResponse)
| Fields (kv : list (string * string)).

Record JSONResponse : Type := mkJSON {
  status_code : nat;
  content : Content
}.

(** [s or default] for an optional string. *)
Definition or_default (s : option string) (default : string) : string :=
  match s with
  | Some v => if Py.truthy v then v else default
  | None => default
  end.

(** The "error" field of a response body, if any. *)
Definition error_of (r : JSONResponse) : option string :=
  match content r with
  | Fields kv =>
      match find (fun p => (fst p =? "error")%string) kv with
      | Some p => Some (snd p)
      | None => None
      end
  | Extraction _ => None
  end.

(* ===================================================================== *)
(** ** The main service, [server/ocr_service.py] *)
(* ===================================================================== *)

Module OcrService.

(** [min(a, b)] of Python: [b] when [b < a], else [a]. *)
Definition py_min (a b : Q) : Q := if negb (Qle_bool a b) then b else a.

(** [sum(len(page.get_text("text")) for page in doc)] *)
Fixpoint sum_text_len (ps : list Page) : result nat :=
  match ps with
  | [] => Ok 0
  | p :: rest =>
      match get_text_text p with
      | Raise e => Raise e
      | Ok s =>
          match sum_text_len rest with
          | Ok n => Ok (Py.len s + n)
          | Raise e => Raise e
          end
      end
  end.

Definition Q_of_nat (n : nat) : Q := inject_Z (Z.of_nat n).

Definition _page_text_ratio (doc : Document) : Q :=
  match sum_text_len (doc_pages doc) with
  | Ok chars =>
      let denom := Nat.max 1 (page_count doc) * 1000 in
      py_min 1 (Q_of_nat chars / Q_of_nat denom)
  | Raise _ => 0%Q
  end.

(** [float(x)], raising when [x] is not convertible. *)
Definition to_float (v : pyval) : result pyfloat :=
  match PyFloat.of_val v with
  | Some f => Ok f
  | None => Raise (Exception "could not convert to float")
  end.

Definition paddle_block (line : PaddleLine) : result TextBlock :=
  let '((x1, y1), (x2, y2), (x3, y3), (x4, y4)) := pl_quad line in
  match to_float (pl_conf line) with
  | Ok conf => Ok (mkBlock (pl_text line) conf [x1; y1; x3; y3] None)
  | Raise e => Raise e
  end.

(** One iteration of [for line in (result[0] or [])]. *)
Definition paddle_step (blocks : list TextBlock) (line : PaddleLine)
  : M (list TextBlock) :=
  b <- lift (paddle_block line) ;;
  ret (blocks ++ [b]).

Definition _ocr_image_paddle (E : Env) (img : Image) : M (list TextBlock) :=
  if negb (PADDLE_OK E) then ret []            (* _get_paddle() is None *)
  else
    result <- call (CallPaddle img) (paddle_ocr E img) ;;
    for_each (match result with Some ls => ls | None => [] end) [] paddle_step.

(** The confidence stored for a Tesseract row:
    [try: conf = float(tsv["conf"][i])  except: conf = -1.0], then
    [conf / 100.0 if conf > 1 else 0.0]. *)
Definition tesseract_conf (tsv : TSV) (i : nat) : pyfloat :=
  let conf :=
    match nth_error (tsv_conf tsv) i with
    | Some v =>
        match PyFloat.of_val v with
        | Some f => f
        | None => Fin (-1)%Q
        end
    | None => Fin (-1)%Q
    end in
  if PyFloat.gtb conf 1 then PyFloat.div conf 100 else Fin 0%Q.

(** One iteration of the row loop of [_ocr_image_tesseract]. *)
Definition tesseract_row (tsv : TSV) (blocks : list TextBlock) (i : nat)
  : M (list TextBlock) :=
  txt <- lift (index (tsv_text tsv) i) ;;
  if negb (Py.truthy txt) || (Py.strip txt =? "")%string then ret blocks
  else
    let conf := tesseract_conf tsv i in
    x <- lift (index (tsv_left tsv) i) ;;
    y <- lift (index (tsv_top tsv) i) ;;
    w <- lift (index (tsv_width tsv) i) ;;
    h <- lift (index (tsv_height tsv) i) ;;
    ret (blocks ++ [mkBlock txt conf
                      [inject_Z x; inject_Z y; inject_Z (x + w); inject_Z (y + h)]
                      None]).

Definition _ocr_image_tesseract (E : Env) (img : Image) : M (list TextBlock) :=
  if negb (TESSERACT_OK E) then ret []
  else
    tsv <- call (CallTesseract img) (image_to_data E img) ;;
    for_each (seq 0 (length (tsv_text tsv))) [] (tesseract_row tsv).

Definition _merge_blocks_to_text (blocks : list TextBlock) : string :=
  Py.join " " (map b_text (filter (fun b => Py.truthy (b_text b)) blocks)).

(** [(cell or "").strip()] *)
Definition clean_cell (cell : option string) : string :=
  match cell with
  | Some c => Py.strip c
  | None => Py.strip ""
  end.

(** The loop [for t in table_sets] of one page.  It appends to
    [tables_out] as it goes, so what was appended before an exception
    stays appended: the result pairs the list reached with the way the loop
    ended. *)
Fixpoint convert_tables (p_idx : nat) (table_sets : list (option PlumberTable))
    (tables_out : list Table) : list Table * result unit :=
  match table_sets with
  | [] => (tables_out, Ok tt)
  | None :: rest => convert_tables p_idx rest tables_out       (* not t *)
  | Some t :: rest =>
      match pt_cells t with
      | [] => convert_tables p_idx rest tables_out             (* not t.cells *)
      | _ :: _ =>
          match pt_extract t with
          | Raise e => (tables_out, Raise e)
          | Ok rows =>
              let matrix := map (map clean_cell) rows in
              match matrix with
              | [] => convert_tables p_idx rest tables_out
              | _ :: _ =>
                  convert_tables p_idx rest
                    (tables_out ++ [mkTable (p_idx + 1) matrix "pdfplumber"])
              end
          end
      end
  end.

(** The body of [for p_idx, page in enumerate(pdf.pages)], with its
    [try: ... except: continue]. *)
Definition page_tables (tables_out : list Table) (ip : nat * PlumberPage)
  : M (list Table) :=
  let '(p_idx, page) := ip in
  try_except
    (ts_lines <- call (CallFindTables p_idx LinesStrategy)
                      (find_tables page LinesStrategy) ;;
     ts_text <- call (CallFindTables p_idx TextStrategy)
                     (find_tables page TextStrategy) ;;
     ret (fst (convert_tables p_idx (ts_lines ++ ts_text) tables_out)))
    (fun _ => ret tables_out).

Definition _extract_tables_plumber (E : Env) (file_bytes : bytes)
  : M (list Table) :=
  if negb (PLUMBER_OK E) then ret []
  else
    try_except
      (pdf_pages <- call (CallPlumberOpen file_bytes)
                         (plumber_open E file_bytes) ;;
       for_each (enumerate 0 pdf_pages) [] page_tables)
      (fun _ => ret []).

(** The dict returned by the two PDF strategies. *)
Record Parsed : Type := mkParsed {
  parsed_text : string;
  parsed_blocks : list TextBlock;
  parsed_tables : list Table
}.

(** The three nested loops over blocks, lines and spans of one page. *)
Definition span_blocks (pno : nat) (dict_content : TextDict) : list TextBlock :=
  flat_map (fun block =>
    flat_map (fun line =>
      map (fun span =>
             let '(x0, y0, x1, y1) := span_bbox span in
             mkBlock (span_text span) (Fin 1%Q) [x0; y0; x1; y1]
                     (Some (pno + 1)))
          line)
      block)
    dict_content.

(** One iteration of [for pno in range(doc.page_count)] of
    [_extract_digital_pdf]. *)
Definition digital_page (acc : list string * list TextBlock) (ip : nat * Page)
  : M (list string * list TextBlock) :=
  let '(text_all, blocks_all) := acc in
  let '(pno, page) := ip in
  text <- lift (get_text_text page) ;;
  dict_content <- lift (get_text_dict page) ;;
  ret (text_all ++ [text], blocks_all ++ span_blocks pno dict_content).

Definition _extract_digital_pdf (doc : Document) : M Parsed :=
  '(text_all, blocks_all) <-
    for_each (enumerate 0 (doc_pages doc)) ([], []) digital_page ;;
  ret (mkParsed (Py.join Py.NL text_all) blocks_all []).

(** The two-engine cascade, as written in [_extract_scanned_pdf] and again
    in the image branch of [extract]:
    [blocks = _ocr_image_paddle(img) if PADDLE_OK else []] then
    [if not blocks and TESSERACT_OK: blocks = _ocr_image_tesseract(img)]. *)
Definition ocr_cascade (E : Env) (img : Image) : M (list TextBlock) :=
  blocks <- (if PADDLE_OK E then _ocr_image_paddle E img else ret []) ;;
  match blocks with
  | [] => if TESSERACT_OK E then _ocr_image_tesseract E img else ret blocks
  | _ :: _ => ret blocks
  end.

Definition scanned_page (E : Env)
    (acc : list string * list TextBlock) (ip : nat * Page)
  : M (list string * list TextBlock) :=
  let '(texts, blocks_all) := acc in
  let '(pno, page) := ip in
  png <- lift (get_pixmap_png page) ;;
  img <- call (CallImageOpen png) (image_open E png) ;;
  blocks <- ocr_cascade E img ;;
  let page_text := _merge_blocks_to_text blocks in
  ret (texts ++ [page_text], blocks_all ++ map (set_page (pno + 1)) blocks).

Definition _extract_scanned_pdf (E : Env) (doc : Document) : M Parsed :=
  '(texts, blocks_all) <-
    for_each (enumerate 0 (doc_pages doc)) ([], []) (scanned_page E) ;;
  ret (mkParsed (Py.join Py.NL texts) blocks_all []).

Definition _guess_mime (name : string) : string :=
  let name := Py.lower name in
  if Py.endswith name ".pdf" then "application/pdf"
  else if Py.endswith_any name
            [".png"; ".jpg"; ".jpeg"; ".webp"; ".tif"; ".tiff"; ".bmp"]
  then "image"
  else "application/octet-stream".

(** The [if mime == "application/pdf":] branch of [extract]. *)
Definition extract_pdf (E : Env) (fname mime : string) (file_bytes : bytes)
    (want_tables : bool) : M JSONResponse :=
  doc <- call (CallFitzOpen file_bytes) (fitz_open E file_bytes) ;;
  let ratio := _page_text_ratio doc in
  let is_digital := negb (Qle_bool ratio (1 # 10)) in    (* ratio > 0.1 *)
  '(engine, text, blocks, tables) <-
    (if is_digital then
       parsed <- _extract_digital_pdf doc ;;
       tables <- (if want_tables then
                    if PLUMBER_OK E then _extract_tables_plumber E file_bytes
                    else ret []
                  else ret []) ;;
       ret ("pymupdf", parsed_text parsed, parsed_blocks parsed, tables)
     else
       parsed <- _extract_scanned_pdf E doc ;;
       ret ("ocr", parsed_text parsed, parsed_blocks parsed, [])) ;;
  ret (mkJSON 200 (Extraction
         (mkResponse fname (Some mime) (page_count doc) (Some is_digital)
                     text blocks tables (Some engine)))).

(** The [elif mime == "image":] branch of [extract]. *)
Definition extract_image (E : Env) (fname mime : string) (file_bytes : bytes)
  : M JSONResponse :=
  if negb (PADDLE_OK E || TESSERACT_OK E) then
    ret (mkJSON 500 (Fields
      [("error", "No OCR engine available (install paddleocr or tesseract).")]))
  else
    img <- call (CallImageOpen file_bytes) (image_open E file_bytes) ;;
    blk <- ocr_cascade E img ;;
    let text := _merge_blocks_to_text blk in
    let blk := map (set_page 1) blk in
    ret (mkJSON 200 (Extraction
           (mkResponse fname (Some mime) 1 None text blk [] (Some "ocr")))).

(** The final [else:] branch of [extract]. *)
Definition extract_unsupported (fname : string) : M JSONResponse :=
  ret (mkJSON 400 (Fields
         [("error", ("Unsupported file type for " ++ fname)%string)])).

Definition extract (E : Env) (file : UploadFile) (want_tables : bool)
  : M JSONResponse :=
  file_bytes <- lift (read file) ;;
  let fname := or_default (filename file) "uploaded" in
  let mime := _guess_mime fname in
  if (mime =? "application/pdf")%string then
    extract_pdf E fname mime file_bytes want_tables
  else if (mime =? "image")%string then
    extract_image E fname mime file_bytes
  else
    extract_unsupported fname.

(** The shared PaddleOCR object. *)
Inductive PaddleHandle : Type := Handle (serial : nat).

(** The module-level state behind [_get_paddle]: the global
    [_paddle_singleton], and how many times [PaddleOCR(...)] was called. *)
Record PaddleState : Type := mkPaddleState {
  _paddle_singleton : option PaddleHandle;
  constructions : nat
}.

(** [_get_paddle()], with the capability flag [paddle_ok] and the
    constructor [PaddleOCR] (given the number of earlier constructions; it
    may raise).  It returns the new state with the value or the
    exception. *)
Definition _get_paddle (paddle_ok : bool)
    (PaddleOCR : nat -> result PaddleHandle) (st : PaddleState)
  : PaddleState * result (option PaddleHandle) :=
  if negb paddle_ok then (st, Ok None)
  else
    match _paddle_singleton st with
    | None =>
        let n := constructions st in
        match PaddleOCR n with
        | Ok h => (mkPaddleState (Some h) (S n), Ok (Some h))
        | Raise e => (mkPaddleState None (S n), Raise e)
        end
    | Some h => (st, Ok (Some h))
    end.

(** [k] calls of [_get_paddle] in a row: the final state and the values,
    first call first. *)
Fixpoint get_paddle_calls (paddle_ok : bool)
    (PaddleOCR : nat -> result PaddleHandle) (k : nat) (st : PaddleState)
  : PaddleState * list (result (option PaddleHandle)) :=
  match k with
  | O => (st, [])
  | S k' =>
      let '(st1, r) := _get_paddle paddle_ok PaddleOCR st in
      let '(st2, rs) := get_paddle_calls paddle_ok PaddleOCR k' st1 in
      (st2, r :: rs)
  end.

End OcrService.

(* ===================================================================== *)
(** ** The simplified service, [server/simple_ocr_service.py] *)
(* ===================================================================== *)

Module SimpleOcrService.

(** [v / 100.0], raising [TypeError] on a non-numeric operand. *)
Definition div_100 (v : pyval) : result pyfloat :=
  match PyFloat.val_div v 100 with
  | Some f => Ok f
  | None => Raise (Exception "unsupported operand type(s) for /")
  end.

(** One iteration of the row loop of [_ocr_image_tesseract]. *)
Definition tesseract_row (data : TSV) (blocks : list TextBlock) (i : nat)
  : M (list TextBlock) :=
  raw <- lift (index (tsv_text data) i) ;;
  let text := Py.strip raw in
  if Py.truthy text then
    left <- lift (index (tsv_left data) i) ;;
    top <- lift (index (tsv_top data) i) ;;
    width <- lift (index (tsv_width data) i) ;;
    height <- lift (index (tsv_height data) i) ;;
    conf <- lift (index (tsv_conf data) i) ;;
    confidence <- lift (div_100 conf) ;;
    ret (blocks ++ [mkBlock text confidence
                      [inject_Z left; inject_Z top;
                       inject_Z (left + width); inject_Z (top + height)]
                      (Some 1)])
  else ret blocks.

Definition _ocr_image_tesseract (E : Env) (img : Image) : M (list TextBlock) :=
  if negb (TESSERACT_OK E) then ret []
  else
    try_except
      (data <- call (CallTesseract img) (image_to_data E img) ;;
       for_each (seq 0 (length (tsv_text data))) [] (tesseract_row data))
      (fun e => ret []).           (* print(...); return [] *)

Definition _merge_blocks_to_text (blocks : list TextBlock) : string :=
  Py.join Py.NL
    (map b_text (filter (fun b => Py.truthy (Py.strip (b_text b))) blocks)).

(** [extract_text]; [file] is [None] when the guard [if not file] fires. *)
Definition extract_text (E : Env) (file : option UploadFile) : M JSONResponse :=
  match file with
  | None => ret (mkJSON 400 (Fields [("error", "No file provided")]))
  | Some file =>
      let fname := or_default (filename file) "unknown" in
      let mime := or_default (content_type file) "application/octet-stream" in
      match read file with
      | Raise e =>
          ret (mkJSON 400 (Fields
                 [("error", ("Failed to read file: " ++ exn_str e)%string)]))
      | Ok file_bytes =>
          if Py.startswith mime "image/" then
            if negb (TESSERACT_OK E) then
              ret (mkJSON 500 (Fields [("error", "Tesseract OCR not available")]))
            else
              try_except
                (img <- call (CallImageOpen file_bytes)
                             (image_open E file_bytes) ;;
                 blocks <- _ocr_image_tesseract E img ;;
                 let text := _merge_blocks_to_text blocks in
                 ret (mkJSON 200 (Extraction
                        (mkResponse fname (Some mime) 1 None text blocks []
                                    (Some "tesseract")))))
                (fun e =>
                   ret (mkJSON 500 (Fields
                     [("error",
                       ("OCR processing failed: " ++ exn_str e)%string)])))
          else if (mime =? "application/pdf")%string then
            ret (mkJSON 501 (Fields
              [("error", "PDF processing not available (PyMuPDF not installed)");
               ("suggestion", "Use image conversion or install PyMuPDF")]))
          else
            ret (mkJSON 400 (Fields
                   [("error", ("Unsupported file type: " ++ mime)%string)]))
      end
  end.

End SimpleOcrService.

(* ===================================================================== *)
(** ** Specification-side definitions *)
(* ===================================================================== *)

Module Spec.

Import OcrService.



(** The media kinds of the data model. *)
Inductive Kind : Type := KPdf | KImage | KUnsupported.

(** The kind the main service gives a file name. *)
Definition media_kind (fname : string) : Kind :=
  let mime := _guess_mime fname in
  if (mime =? "application/pdf")%string then KPdf
  else if (mime =? "image")%string then KImage
  else KUnsupported.

(** The kind the simplified service gives a declared content type. *)
Definition simple_kind (mime : string) : Kind :=
  if Py.startswith mime "image/" then KImage
  else if (mime =? "application/pdf")%string then KPdf
  else KUnsupported.

(** The pipeline of the main service for a kind. *)
Definition run_branch (E : Env) (k : Kind) (fname : string)
    (file_bytes : bytes) (want_tables : bool) : M JSONResponse :=
  match k with
  | KPdf => extract_pdf E fname "application/pdf" file_bytes want_tables
  | KImage => extract_image E fname "image" file_bytes
  | KUnsupported => extract_unsupported fname
  end.

(** The block invariant of the data model: text non-empty after trimming
    and confidence within [0, 1]. *)
Definition text_nonblank (b : TextBlock) : Prop := Py.strip (b_text b) <> "".

Definition textblock_ok (b : TextBlock) : Prop :=
  text_nonblank b /\ PyFloat.within 0 1 (b_confidence b).





(** A native confidence that, when numeric, does not exceed 100. *)
Definition at_most_100 (v : pyval) : Prop :=
  match PyFloat.of_val v with
  | Some f => PyFloat.gtb f 100 = false
  | None => True
  end.

(** A native confidence that, when numeric, lies within [0, 100]. *)
Definition percent (v : pyval) : Prop :=
  match v with
  | VInt z => (0 <= z <= 100)%Z
  | VFloat f => PyFloat.within 0 100 f
  | VStr _ => True
  | VNone => True
  end.

(** The tables one page contributes: those of the line-based strategy
    followed by those of the text-based one when both detections return,
    nothing when either raises. *)
Definition page_contribution (ip : nat * PlumberPage) : list Table :=
  let '(p_idx, page) := ip in
  match find_tables page LinesStrategy, find_tables page TextStrategy with
  | Ok a, Ok b => fst (convert_tables p_idx (a ++ b) [])
  | _, _ => []
  end.

(** The detection calls made on one page. *)
Definition page_calls (ip : nat * PlumberPage) : list Call :=
  let '(p_idx, page) := ip in
  match find_tables page LinesStrategy with
  | Ok _ => [CallFindTables p_idx LinesStrategy;
             CallFindTables p_idx TextStrategy]
  | Raise _ => [CallFindTables p_idx LinesStrategy]
  end.

(** The table a detected table object turns into, when it has cells, its
    extraction returns and the row matrix is not empty. *)
Definition table_of (p_idx : nat) (t : option PlumberTable) : list Table :=
  match t with
  | Some t =>
      match pt_cells t, pt_extract t with
      | _ :: _, Ok (r :: rows) =>
          [mkTable (p_idx + 1) (map (map clean_cell) (r :: rows)) "pdfplumber"]
      | _, _ => []
      end
  | None => []
  end.

(** No table object of the list raises on extraction. *)
Definition extract_returns (ts : list (option PlumberTable)) : Prop :=
  Forall (fun t => match t with
                   | Some t => match pt_cells t with
                               | [] => True
                               | _ => exists rows, pt_extract t = Ok rows
                               end
                   | None => True
                   end) ts.

(** A string that does not begin with whitespace. *)
Definition no_leading_space (s : string) : Prop :=
  match s with
  | EmptyString => True
  | String c _ => Py.isspace c = false
  end.

(** Every geometry column of the TSV has an entry for each text row. *)
Definition columns_complete (tsv : TSV) : Prop :=
  length (tsv_text tsv) <= length (tsv_left tsv) /\
  length (tsv_text tsv) <= length (tsv_top tsv) /\
  length (tsv_text tsv) <= length (tsv_width tsv) /\
  length (tsv_text tsv) <= length (tsv_height tsv).


(** The selectable text of each page, in page order (empty where the read
    raises). *)
Definition page_texts (ps : list Page) : list string :=
  map (fun p => match get_text_text p with
                | Ok t => t
                | Raise _ => ""
                end) ps.

(** The spans of a page in reading order. *)
Definition page_spans (p : Page) : list Span :=
  match get_text_dict p with
  | Ok d => concat (concat d)
  | Raise _ => []
  end.

(** The block a span of page number [pno] (0-based) becomes. *)
Definition span_block (pno : nat) (span : Span) : TextBlock :=
  let '(x0, y0, x1, y1) := span_bbox span in
  mkBlock (span_text span) (Fin 1%Q) [x0; y0; x1; y1] (Some (pno + 1)).

(** The blocks of the pages [ps], numbered from [start]. *)
Definition digital_blocks (start : nat) (ps : list Page) : list TextBlock :=
  flat_map (fun ip => map (span_block (fst ip)) (page_spans (snd ip)))
           (enumerate start ps).

(** A primary-engine block carries the text of its line and the float of
    its score. *)
Definition from_line (line : PaddleLine) (b : TextBlock) : Prop :=
  b_text b = pl_text line /\
  PyFloat.of_val (pl_conf line) = Some (b_confidence b) /\
  b_page b = None.

(** The per-page block lists [bss] as the scanned path emits them: in page
    order, each block tagged with its 1-based page number, pages numbered
    from [start + 1]. *)
Definition tag_pages (start : nat) (bss : list (list TextBlock))
  : list TextBlock :=
  concat (map (fun ib => map (set_page (fst ib + 1)) (snd ib))
              (enumerate start bss)).


(** Calls into the raster/OCR side: decoding a raster and the two OCR
    engines. *)
Definition is_ocr_call (c : Call) : Prop :=
  match c with
  | CallImageOpen _ | CallPaddle _ | CallTesseract _ => True
  | _ => False
  end.

(** Calls into the table extractor. *)
Definition is_table_call (c : Call) : Prop :=
  match c with
  | CallPlumberOpen _ | CallFindTables _ _ => True
  | _ => False
  end.

(** The page number a block carries (0 when none is set). *)
Definition page_no (b : TextBlock) : nat :=
  match b_page b with
  | Some p => p
  | None => 0
  end.

(** A TSV word that survives the blank filter of the secondary engine. *)
Definition nonblank (txt : string) : bool := negb (Py.strip txt =? "")%string.

(** The invariant of an emitted table whose document has [n] pages. *)
Definition table_ok (n : nat) (t : Table) : Prop :=
  1 <= t_page t <= n /\
  t_rows t <> [] /\
  t_strategy t = "pdfplumber" /\
  Forall (Forall (fun cell => Py.strip cell = cell)) (t_rows t).

(** A confidence that is a non-negative number or plus infinity: neither
    negative nor NaN. *)
Definition conf_nonneg (c : pyfloat) : Prop :=
  match c with
  | Fin q => (0 <= q)%Q
  | PosInf => True
  | NegInf => False
  | NaN => False
  end.

(** The block the primary engine makes of a line: its text, the float of
    its score, the box spanned by its first and third corner, no page. *)
Definition block_of_line (line : PaddleLine) (b : TextBlock) : Prop :=
  let '((x1, y1), _, (x3, y3), _) := pl_quad line in
  b_text b = pl_text line /\
  PyFloat.of_val (pl_conf line) = Some (b_confidence b) /\
  b_bbox b = [x1; y1; x3; y3] /\
  b_page b = None.





End Spec.

(* ===================================================================== *)
(** ** Concrete inputs *)
(* ===================================================================== *)

Module Fixtures.

Import OcrService.

Definition unavailable {A B : Type} (what : string) : A -> result B :=
  fun _ => Raise (Exception what).

(** A process with no optional engine installed. *)
Definition bare_env : Env :=
  mkEnv false false false
        (unavailable "fitz") (unavailable "PIL") (unavailable "paddle")
        (unavailable "tesseract") (unavailable "pdfplumber").

(** [n] copies of [s]. *)
Fixpoint repeat_string (n : nat) (s : string) : string :=
  match n with
  | O => EmptyString
  | S k => (s ++ repeat_string k s)%string
  end.

(** A page that carries selectable text [t] as the spans [spans] of one
    line, and renders to the PNG [png]. *)
Definition text_page (t : string) (spans : list string) (png : bytes) : Page :=
  mkPage (Ok t)
         (Ok [[map (fun s => mkSpan s (0, 0, 10, 10)%Q) spans]])
         (Ok png).

(** A one-page document of 2000 selectable characters (scenario A). *)
Definition doc_2000 : Document :=
  mkDocument [text_page (repeat_string 2000 "a") [repeat_string 2000 "a"] "png"].

(** A one-page document whose text cannot be read. *)
Definition doc_unreadable : Document :=
  mkDocument [mkPage (Raise (Exception "broken xref")) (Ok []) (Ok "png")].

(** A one-page document with 50 selectable characters. *)
Definition doc_50 : Document :=
  mkDocument [text_page (repeat_string 50 "a") [repeat_string 50 "a"] "png"].

(** A document without pages. *)
Definition doc_empty : Document := mkDocument [].

(** An environment whose PDF parser opens every payload as [doc]. *)
Definition pdf_env (doc : Document) : Env :=
  mkEnv false false false
        (fun _ => Ok doc) (unavailable "PIL") (unavailable "paddle")
        (unavailable "tesseract") (unavailable "pdfplumber").

Definition upload (name : string) (payload : bytes) : UploadFile :=
  mkUpload (Some name) None (Ok payload).

Definition typed_upload (name mime : string) (payload : bytes) : UploadFile :=
  mkUpload (Some name) (Some mime) (Ok payload).

(** An environment with only the secondary engine, which reads [tsv] off
    every image. *)
Definition tess_env (tsv : TSV) : Env :=
  mkEnv false true false
        (unavailable "fitz") (fun data => Ok (RGBImage data))
        (unavailable "paddle") (fun _ => Ok tsv) (unavailable "pdfplumber").

Definition img0 : Image := RGBImage "pixels".

(** Scenario C: two words, confidences "87" and "n/a". *)
Definition tsv_scenario_C : TSV :=
  mkTSV ["Invoice"; "Total"] [VStr "87"; VStr "n/a"]
        [10; 90]%Z [20; 20]%Z [70; 40]%Z [12; 12]%Z.

(** One word with native confidence 1 (out of 100). *)
Definition tsv_conf_one : TSV :=
  mkTSV ["Total"] [VInt 1] [10]%Z [20]%Z [40]%Z [12]%Z.

(** A born-digital one-page invoice: one line of three spans, the middle
    one a single space. *)
Definition doc_blank_span : Document :=
  mkDocument
    [text_page ("Invoice " ++ repeat_string 120 "7" ++ Py.NL)%string
               ["Invoice"; " "; repeat_string 120 "7"] "png"].

(** A primary engine that finds three lines on every image, and a
    secondary engine that would find one word (scenario B). *)
Definition three_lines : list PaddleLine :=
  [mkPaddleLine ((0, 0), (50, 0), (50, 10), (0, 10))%Q "NovaAgent" (VFloat (Fin (99 # 100)));
   mkPaddleLine ((0, 20), (50, 20), (50, 30), (0, 30))%Q "Invoice" (VFloat (Fin (95 # 100)));
   mkPaddleLine ((0, 40), (50, 40), (50, 50), (0, 50))%Q "Total" (VFloat (Fin (90 # 100)))].

Definition both_env : Env :=
  mkEnv true true false
        (fun _ => Ok (mkDocument [mkPage (Ok "") (Ok []) (Ok "png")]))
        (fun data => Ok (RGBImage data))
        (fun _ => Ok (Some three_lines))
        (fun _ => Ok tsv_conf_one) (unavailable "pdfplumber").

(** A detected table with one cell box and one row of two cells. *)
Definition tbl : PlumberTable :=
  mkPlumberTable [(0, 0, 10, 10)%Q] (Ok [[Some " a "; None]]).

(** A page on which the line-based detection finds [tbl] and the
    text-based detection raises. *)
Definition page_text_fails : PlumberPage :=
  mkPlumberPage (fun s => match s with
                          | LinesStrategy => Ok [Some tbl]
                          | TextStrategy => Raise (Exception "text strategy failed")
                          end).

(** A page on which the line-based detection raises and the text-based
    detection would find [tbl]. *)
Definition page_lines_fails : PlumberPage :=
  mkPlumberPage (fun s => match s with
                          | LinesStrategy => Raise (Exception "lines strategy failed")
                          | TextStrategy => Ok [Some tbl]
                          end).

(** A page on which both detections find [tbl]. *)
Definition page_both : PlumberPage := mkPlumberPage (fun _ => Ok [Some tbl]).

(** An environment whose table extractor opens every payload as [ps]. *)
Definition plumber_env (ps : list PlumberPage) : Env :=
  mkEnv false false true
        (unavailable "fitz") (unavailable "PIL") (unavailable "paddle")
        (unavailable "tesseract") (fun _ => Ok ps).


(** A primary engine that reports a line with empty text between two
    words. *)
Definition lines_with_gap : list PaddleLine :=
  [mkPaddleLine ((0, 0), (50, 0), (50, 10), (0, 10))%Q "a" (VFloat (Fin (99 # 100)));
   mkPaddleLine ((0, 20), (50, 20), (50, 30), (0, 30))%Q "" (VFloat (Fin (10 # 100)));
   mkPaddleLine ((0, 40), (50, 40), (50, 50), (0, 50))%Q "b" (VFloat (Fin (90 # 100)))].

Definition gap_env : Env :=
  mkEnv true false false
        (fun _ => Ok (mkDocument [mkPage (Ok "") (Ok []) (Ok "png")]))
        (fun data => Ok (RGBImage data))
        (fun _ => Ok (Some lines_with_gap))
        (unavailable "tesseract") (unavailable "pdfplumber").

(** A born-digital PDF (2000 characters on one page) whose page holds a
    table that both detections find; no OCR engine (scenario E). *)
Definition digital_tables_env : Env :=
  mkEnv false false true
        (fun _ => Ok doc_2000) (unavailable "PIL") (unavailable "paddle")
        (unavailable "tesseract") (fun _ => Ok [page_both]).

(** Five TSV rows as Tesseract reports them: structural rows with empty
    text and confidence -1, a blank word, and two words. *)
Definition tsv_page : TSV :=
  mkTSV [""; ""; "Total"; "  "; "42.00"]
        [VStr "-1"; VStr "-1"; VInt 96; VInt 95; VStr "91.5"]
        [0; 0; 10; 60; 70]%Z [0; 0; 20; 20; 20]%Z
        [200; 200; 40; 5; 50]%Z [100; 30; 12; 12; 12]%Z.

(** A table in which the second word has the confidence as a string,
    which the simplified service cannot divide. *)
Definition tsv_string_conf : TSV :=
  mkTSV ["Total"; "42.00"] [VInt 96; VStr "91"]
        [10; 70]%Z [20; 20]%Z [40; 50]%Z [12; 12]%Z.

(** Two words with numeric confidences. *)
Definition tsv_two_words : TSV :=
  mkTSV ["Total"; " 42.00 "] [VInt 96; VInt 91]
        [10; 70]%Z [20; 20]%Z [40; 50]%Z [12; 12]%Z.

(** A constructor of the primary engine that fails the first time and
    succeeds afterwards. *)
Definition flaky_paddle (n : nat) : result PaddleHandle :=
  match n with
  | O => Raise (Exception "model download failed")
  | S _ => Ok (Handle n)
  end.

(** A primary engine whose second line has a score that is no number. *)
Definition bad_score_env : Env :=
  mkEnv true true false
        (unavailable "fitz") (fun data => Ok (RGBImage data))
        (fun _ => Ok (Some
           [mkPaddleLine ((0, 0), (50, 0), (50, 10), (0, 10))%Q "a"
                         (VFloat (Fin (99 # 100)));
            mkPaddleLine ((0, 20), (50, 20), (50, 30), (0, 30))%Q "b" VNone]))
        (fun _ => Ok tsv_conf_one) (unavailable "pdfplumber").

(** A scanned two-page document whose second page cannot be rendered. *)
Definition doc_render_fails : Document :=
  mkDocument [mkPage (Ok "") (Ok []) (Ok "png");
              mkPage (Ok "") (Ok []) (Raise (Exception "render failed"))].

End Fixtures.

(* ===================================================================== *)
(** * Properties *)
(* ===================================================================== *)

Import OcrService.

(** ** Basic facts about the monad *)

Lemma bind_ok {A B} (m : M A) (f : A -> M B) l b :
  bind m f = (l, Ok b) ->
  exists l1 a l2, m = (l1, Ok a) /\ f a = (l2, Ok b) /\ l = l1 ++ l2.
Proof.
  unfold bind. destruct m as [l1 [a|e]]; [|discriminate].
  destruct (f a) as [l2 r] eqn:Hf. intros H. inversion H; subst.
  exists l1, a, l2. auto.
Qed.

Lemma bind_lift_ok {A B} (a : A) (f : A -> M B) :
  bind (lift (Ok a)) f = f a.
Proof. unfold bind, lift. destruct (f a); reflexivity. Qed.

Lemma bind_ret {A B} (a : A) (f : A -> M B) : bind (ret a) f = f a.
Proof. unfold bind, ret. destruct (f a); reflexivity. Qed.

Lemma bind_call_ok {A B} c (a : A) (f : A -> M B) :
  bind (call c (Ok a)) f = (c :: fst (f a), snd (f a)).
Proof. unfold bind, call. destruct (f a); reflexivity. Qed.

Lemma bind_raise {A B} l e (f : A -> M B) : bind (l, Raise e) f = (l, Raise e).
Proof. reflexivity. Qed.

(** A loop keeps an invariant of its state when each iteration does. *)
Lemma for_each_invariant {S X} (I : S -> Prop) (body : S -> X -> M S) :
  (forall st x l st', I st -> body st x = (l, Ok st') -> I st') ->
  forall xs st l st',
    I st -> for_each xs st body = (l, Ok st') -> I st'.
Proof.
  intros Hbody xs. induction xs as [|x xs IH]; simpl; intros st l st' Hst H.
  - inversion H; subst; assumption.
  - apply bind_ok in H. destruct H as (l1 & a & l2 & H1 & H2 & _).
    eapply IH; [|exact H2]. eapply Hbody; eauto.
Qed.


(** ** Python strings *)

Lemma rstrip_cons c r :
  Py.rstrip (String c r) =
  match Py.rstrip r with
  | EmptyString => if Py.isspace c then EmptyString else String c EmptyString
  | r' => String c r'
  end.
Proof. reflexivity. Qed.

Lemma rstrip_idem s : Py.rstrip (Py.rstrip s) = Py.rstrip s.
Proof.
  induction s as [|c r IH]; [reflexivity|].
  rewrite rstrip_cons.
  destruct (Py.rstrip r) as [|c' r'] eqn:Hr.
  - destruct (Py.isspace c) eqn:Hc; [reflexivity|].
    rewrite rstrip_cons. simpl. rewrite Hc. reflexivity.
  - rewrite rstrip_cons, IH. reflexivity.
Qed.

Lemma lstrip_no_leading_space s : Spec.no_leading_space (Py.lstrip s).
Proof.
  induction s as [|c r IH]; simpl; [exact I|].
  destruct (Py.isspace c) eqn:Hc; [exact IH | exact Hc].
Qed.

Lemma lstrip_fixed s : Spec.no_leading_space s -> Py.lstrip s = s.
Proof. destruct s as [|c r]; simpl; [reflexivity|]. intros ->. reflexivity. Qed.

Lemma rstrip_no_leading_space s :
  Spec.no_leading_space s -> Spec.no_leading_space (Py.rstrip s).
Proof.
  destruct s as [|c r]; [intros; exact I|].
  intros Hc. simpl in Hc. rewrite rstrip_cons.
  destruct (Py.rstrip r); [rewrite Hc|]; exact Hc.
Qed.

Lemma strip_idem s : Py.strip (Py.strip s) = Py.strip s.
Proof.
  unfold Py.strip.
  rewrite (lstrip_fixed (Py.rstrip (Py.lstrip s))).
  - apply rstrip_idem.
  - apply rstrip_no_leading_space, lstrip_no_leading_space.
Qed.

Lemma truthy_iff s : Py.truthy s = true <-> s <> "".
Proof. destruct s; simpl; split; congruence. Qed.

Lemma truthy_false_iff s : Py.truthy s = false <-> s = "".
Proof. destruct s; simpl; split; congruence. Qed.

Lemma join_single sep s : Py.join sep [s] = s.
Proof. reflexivity. Qed.

Lemma join_cons2 sep a b rest :
  Py.join sep (a :: b :: rest) = (a ++ sep ++ Py.join sep (b :: rest))%string.
Proof. reflexivity. Qed.

(** ** The classifier *)








(** Scenario A: 2000 characters on one page give ratio 1.0. *)
Example ratio_scenario_A : _page_text_ratio Fixtures.doc_2000 = 1%Q.
Proof. vm_compute. reflexivity. Qed.

Example ratio_unreadable_doc : _page_text_ratio Fixtures.doc_unreadable = 0%Q.
Proof. reflexivity. Qed.

Example ratio_doc_50 : _page_text_ratio Fixtures.doc_50 = (50 # 1000)%Q.
Proof. vm_compute. reflexivity. Qed.

(** ** Monotonicity of the ratio *)







(** ** Dispatch on the media kind *)

Lemma extract_dispatch E file want_tables file_bytes :
  read file = Ok file_bytes ->
  extract E file want_tables =
  Spec.run_branch E (Spec.media_kind (or_default (filename file) "uploaded"))
                  (or_default (filename file) "uploaded")
                  file_bytes want_tables.
Proof.
  intros Hr. unfold extract. rewrite Hr, bind_lift_ok.
  unfold Spec.media_kind, Spec.run_branch.
  destruct (_guess_mime (or_default (filename file) "uploaded") =? "application/pdf")%string
    eqn:Hp.
  - apply String.eqb_eq in Hp. rewrite Hp. reflexivity.
  - destruct (_guess_mime (or_default (filename file) "uploaded") =? "image")%string
      eqn:Hi; [|reflexivity].
    apply String.eqb_eq in Hi. rewrite Hi. reflexivity.
Qed.

Lemma media_kind_pdf_iff fname :
  Spec.media_kind fname = Spec.KPdf <->
  Py.endswith (Py.lower fname) ".pdf" = true.
Proof.
  unfold Spec.media_kind, _guess_mime.
  destruct (Py.endswith (Py.lower fname) ".pdf"); [simpl; tauto|].
  cbv iota.
  match goal with |- context [Py.endswith_any ?a ?b] =>
    destruct (Py.endswith_any a b) end; simpl; split; discriminate.
Qed.

(** C10: with the payload read, the branch [extract] takes is the one of
    the media kind of the file name, which is computed from the lowercased
    name alone; two uploads that share a name take the same branch whatever
    their bytes, and a name ending in ".pdf" (in any case) always enters
    the PDF pipeline. *)
Theorem C10_kind_ignores_payload E want_tables (f1 f2 : UploadFile) b1 b2 :
  read f1 = Ok b1 ->
  read f2 = Ok b2 ->
  filename f1 = filename f2 ->
  let fname := or_default (filename f1) "uploaded" in
  let k := Spec.media_kind fname in
  extract E f1 want_tables = Spec.run_branch E k fname b1 want_tables /\
  extract E f2 want_tables = Spec.run_branch E k fname b2 want_tables /\
  (forall other, Py.lower other = Py.lower fname -> Spec.media_kind other = k) /\
  (Py.endswith (Py.lower fname) ".pdf" = true ->
   extract E f1 want_tables =
     extract_pdf E fname "application/pdf" b1 want_tables /\
   extract E f2 want_tables =
     extract_pdf E fname "application/pdf" b2 want_tables).
Proof.
  intros H1 H2 Hn fname k. subst fname k.
  rewrite (extract_dispatch E f1 want_tables b1 H1).
  rewrite (extract_dispatch E f2 want_tables b2 H2).
  rewrite <- Hn.
  split; [reflexivity|]. split; [reflexivity|]. split.
  - intros other Hl. unfold Spec.media_kind, _guess_mime. rewrite Hl.
    reflexivity.
  - intros Hpdf. apply media_kind_pdf_iff in Hpdf. rewrite Hpdf.
    split; reflexivity.
Qed.

Lemma C10_kind_ignores_payload_witness :
  extract Fixtures.bare_env (Fixtures.upload "Report.PDF" "not a pdf at all") true =
  extract_pdf Fixtures.bare_env "Report.PDF" "application/pdf"
              "not a pdf at all" true /\
  extract Fixtures.bare_env (Fixtures.upload "Report.PDF" "%PDF-1.7") true =
  extract_pdf Fixtures.bare_env "Report.PDF" "application/pdf" "%PDF-1.7" true.
Proof.
  apply (C10_kind_ignores_payload Fixtures.bare_env true
           (Fixtures.upload "Report.PDF" "not a pdf at all")
           (Fixtures.upload "Report.PDF" "%PDF-1.7")
           "not a pdf at all" "%PDF-1.7" eq_refl eq_refl eq_refl).
  reflexivity.
Defined.

Example guess_mime_pdf : _guess_mime "Scan.PDF" = "application/pdf".
Proof. reflexivity. Qed.
Example guess_mime_jpeg : _guess_mime "photo.JPeG" = "image".
Proof. reflexivity. Qed.
Example guess_mime_txt : _guess_mime "notes.txt" = "application/octet-stream".
Proof. reflexivity. Qed.
Example guess_mime_short : _guess_mime "pdf" = "application/octet-stream".
Proof. reflexivity. Qed.

(** ** Unsupported uploads *)

(** C8: an upload whose kind is neither pdf nor image is answered, in both
    services, with status 400 and an "error" field that begins
    "Unsupported file type" and names the file (main service) or the
    declared type (simplified service); no engine is called.  The payload is
    taken as read: both services read it before they look at the kind. *)
Theorem C8_unsupported_rejected E (file : UploadFile) want_tables file_bytes :
  read file = Ok file_bytes ->
  let fname := or_default (filename file) "uploaded" in
  let mime := or_default (content_type file) "application/octet-stream" in
  (Spec.media_kind fname = Spec.KUnsupported ->
   exists resp msg,
     extract E file want_tables = ([], Ok resp) /\
     status_code resp = 400 /\
     error_of resp = Some msg /\
     msg = ("Unsupported file type for " ++ fname)%string /\
     Py.startswith msg "Unsupported file type" = true) /\
  (Spec.simple_kind mime = Spec.KUnsupported ->
   exists resp msg,
     SimpleOcrService.extract_text E (Some file) = ([], Ok resp) /\
     status_code resp = 400 /\
     error_of resp = Some msg /\
     msg = ("Unsupported file type: " ++ mime)%string /\
     Py.startswith msg "Unsupported file type" = true).
Proof.
  intros Hr fname mime. split.
  - intros Hk. rewrite (extract_dispatch E file want_tables file_bytes Hr).
    fold fname. rewrite Hk. simpl. unfold extract_unsupported, ret.
    do 2 eexists. repeat split.
  - intros Hk. unfold SimpleOcrService.extract_text. rewrite Hr. fold mime.
    unfold Spec.simple_kind in Hk.
    destruct (Py.startswith mime "image/"); [discriminate|].
    destruct (mime =? "application/pdf")%string; [discriminate|].
    unfold ret. do 2 eexists. repeat split.
Qed.

Lemma C8_unsupported_rejected_witness :
  let file := Fixtures.typed_upload "notes.txt" "text/plain" "hello" in
  (exists resp msg,
     extract Fixtures.bare_env file true = ([], Ok resp) /\
     status_code resp = 400 /\
     error_of resp = Some msg /\
     msg = "Unsupported file type for notes.txt" /\
     Py.startswith msg "Unsupported file type" = true) /\
  (exists resp msg,
     SimpleOcrService.extract_text Fixtures.bare_env (Some file) = ([], Ok resp) /\
     status_code resp = 400 /\
     error_of resp = Some msg /\
     msg = "Unsupported file type: text/plain" /\
     Py.startswith msg "Unsupported file type" = true).
Proof.
  intros file.
  destruct (C8_unsupported_rejected Fixtures.bare_env file true
              "hello" eq_refl) as [Hm Hs].
  split; [exact (Hm eq_refl) | exact (Hs eq_refl)].
Defined.

(** ** The empty document *)

(** C7: an upload routed to the PDF pipeline whose document has no page
    is answered with status 200, [pages = 0], empty text, no blocks and no
    tables; the only engine called is the PDF parser, and the verdict is
    "scanned". *)
Theorem C7_zero_page_pdf E (file : UploadFile) want_tables file_bytes doc :
  read file = Ok file_bytes ->
  Spec.media_kind (or_default (filename file) "uploaded") = Spec.KPdf ->
  fitz_open E file_bytes = Ok doc ->
  page_count doc = 0 ->
  exists r,
    extract E file want_tables =
      ([CallFitzOpen file_bytes], Ok (mkJSON 200 (Extraction r))) /\
    pages r = 0 /\ text r = "" /\ blocks r = [] /\ tables r = [] /\
    is_digital_pdf r = Some false /\ metadata_engine r = Some "ocr".
Proof.
  intros Hr Hk Hopen Hn.
  rewrite (extract_dispatch E file want_tables file_bytes Hr), Hk.
  unfold Spec.run_branch, extract_pdf. rewrite Hopen.
  destruct doc as [ps]. unfold page_count in Hn. simpl in Hn.
  apply length_zero_iff_nil in Hn. subst ps.
  eexists. split; [reflexivity|]. repeat split.
Qed.

Lemma C7_zero_page_pdf_witness :
  exists r,
    extract (Fixtures.pdf_env Fixtures.doc_empty)
            (Fixtures.upload "empty.pdf" "%PDF-1.7") true =
      ([CallFitzOpen "%PDF-1.7"], Ok (mkJSON 200 (Extraction r))) /\
    pages r = 0 /\ text r = "" /\ blocks r = [] /\ tables r = [] /\
    is_digital_pdf r = Some false /\ metadata_engine r = Some "ocr".
Proof.
  apply (C7_zero_page_pdf (Fixtures.pdf_env Fixtures.doc_empty)
           (Fixtures.upload "empty.pdf" "%PDF-1.7") true "%PDF-1.7"
           Fixtures.doc_empty); reflexivity.
Defined.

(** ** Confidence of the secondary engine *)


Lemma index_ok {X} (xs : list X) i x :
  index xs i = Ok x <-> nth_error xs i = Some x.
Proof.
  unfold index. destruct (nth_error xs i); split; intros H;
    inversion H; reflexivity.
Qed.

Lemma index_lt {X} (xs : list X) i :
  i < length xs -> exists x, index xs i = Ok x.
Proof.
  intros H. unfold index.
  destruct (nth_error xs i) as [x|] eqn:E; [eauto|].
  apply nth_error_None in E. lia.
Qed.

(** What one iteration of the row loop does when it returns. *)
Lemma tesseract_row_ok tsv blocks i l st :
  tesseract_row tsv blocks i = (l, Ok st) ->
  st = blocks \/
  exists txt bbox,
    nth_error (tsv_text tsv) i = Some txt /\
    Py.strip txt <> "" /\
    st = blocks ++ [mkBlock txt (tesseract_conf tsv i) bbox None].
Proof.
  unfold tesseract_row. intros H.
  destruct (index (tsv_text tsv) i) as [txt|e] eqn:Ht; [|discriminate H].
  rewrite bind_lift_ok in H.
  destruct (negb (Py.truthy txt) || (Py.strip txt =? "")%string) eqn:Hb.
  - inversion H. now left.
  - apply orb_false_iff in Hb. destruct Hb as [_ Hs].
    apply String.eqb_neq in Hs.
    destruct (index (tsv_left tsv) i); [|discriminate H].
    rewrite bind_lift_ok in H.
    destruct (index (tsv_top tsv) i); [|discriminate H].
    rewrite bind_lift_ok in H.
    destruct (index (tsv_width tsv) i); [|discriminate H].
    rewrite bind_lift_ok in H.
    destruct (index (tsv_height tsv) i); [|discriminate H].
    rewrite bind_lift_ok in H.
    inversion H. right. do 2 eexists.
    split; [apply (proj1 (index_ok _ _ _)); exact Ht|].
    split; [exact Hs | reflexivity].
Qed.



Lemma tesseract_run E img tsv :
  TESSERACT_OK E = true -> image_to_data E img = Ok tsv ->
  _ocr_image_tesseract E img =
  (CallTesseract img ::
     fst (for_each (seq 0 (length (tsv_text tsv))) [] (tesseract_row tsv)),
   snd (for_each (seq 0 (length (tsv_text tsv))) [] (tesseract_row tsv))).
Proof.
  intros Hok Hd. unfold _ocr_image_tesseract. rewrite Hok, Hd. simpl negb.
  cbv iota. rewrite bind_call_ok. reflexivity.
Qed.

(** Every block the secondary engine returns satisfies [P] as soon as [P]
    holds of any block made from a non-blank row. *)
Lemma tesseract_blocks_forall (P : TextBlock -> Prop) E img tsv l bs :
  TESSERACT_OK E = true -> image_to_data E img = Ok tsv ->
  (forall i txt bbox,
     nth_error (tsv_text tsv) i = Some txt -> Py.strip txt <> "" ->
     P (mkBlock txt (tesseract_conf tsv i) bbox None)) ->
  _ocr_image_tesseract E img = (l, Ok bs) ->
  Forall P bs.
Proof.
  intros Hok Hd HP H. rewrite (tesseract_run E img tsv Hok Hd) in H.
  inversion H as [[Hl Hs]]. clear H Hl.
  destruct (for_each (seq 0 (length (tsv_text tsv))) [] (tesseract_row tsv))
    as [l' r] eqn:Hloop. simpl in Hs. subst r.
  revert Hloop. apply (for_each_invariant (Forall P)); [|constructor].
  intros st i l0 st' Hst Hrow.
  apply tesseract_row_ok in Hrow.
  destruct Hrow as [-> | (txt & bbox & Ht & Hs & ->)]; [exact Hst|].
  apply Forall_app. split; [exact Hst|]. constructor; [|constructor].
  now apply HP.
Qed.




(** ** Block invariants *)

Lemma within_percent_div q :
  (0 <= q)%Q -> (q <= 100)%Q -> PyFloat.within 0 1 (Fin (q / 100)).
Proof.
  intros H0 H1. simpl. split.
  - unfold Qdiv. apply Qmult_le_0_compat; [exact H0 | discriminate].
  - apply Qle_shift_div_r; [reflexivity|]. exact H1.
Qed.

Lemma gtb_false_le q b : PyFloat.gtb (Fin q) b = false -> (q <= b)%Q.
Proof.
  simpl. rewrite negb_false_iff. apply Qle_bool_iff.
Qed.

Lemma gtb_true_lt q b : PyFloat.gtb (Fin q) b = true -> (b < q)%Q.
Proof.
  simpl. rewrite negb_true_iff. intros H. apply Qnot_le_lt. intros Hle.
  apply Qle_bool_iff in Hle. congruence.
Qed.

Lemma tesseract_conf_within tsv i :
  Forall Spec.at_most_100 (tsv_conf tsv) ->
  PyFloat.within 0 1 (tesseract_conf tsv i).
Proof.
  intros Hall. unfold tesseract_conf.
  assert (PyFloat.within 0 1 (Fin 0%Q)) as Hz by (split; discriminate).
  destruct (nth_error (tsv_conf tsv) i) as [v|] eqn:Hv; [|exact Hz].
  apply nth_error_In in Hv.
  pose proof (proj1 (Forall_forall _ _) Hall v Hv) as Hb.
  unfold Spec.at_most_100 in Hb.
  destruct (PyFloat.of_val v) as [f|]; [|exact Hz].
  destruct (PyFloat.gtb f 1) eqn:G; [|exact Hz].
  destruct f as [q| | |]; try discriminate.
  simpl PyFloat.div. apply within_percent_div.
  - apply gtb_true_lt in G. apply Qlt_le_weak.
    eapply Qlt_trans; [|exact G]. reflexivity.
  - now apply gtb_false_le.
Qed.

Lemma simple_row_ok data blocks i l st :
  SimpleOcrService.tesseract_row data blocks i = (l, Ok st) ->
  st = blocks \/
  exists raw v conf bbox,
    nth_error (tsv_text data) i = Some raw /\
    Py.strip raw <> "" /\
    nth_error (tsv_conf data) i = Some v /\
    PyFloat.val_div v 100 = Some conf /\
    st = blocks ++ [mkBlock (Py.strip raw) conf bbox (Some 1)].
Proof.
  unfold SimpleOcrService.tesseract_row. intros H.
  destruct (index (tsv_text data) i) as [raw|e] eqn:Ht; [|discriminate H].
  rewrite bind_lift_ok in H.
  destruct (Py.truthy (Py.strip raw)) eqn:Hb.
  - apply truthy_iff in Hb.
    destruct (index (tsv_left data) i); [|discriminate H].
    rewrite bind_lift_ok in H.
    destruct (index (tsv_top data) i); [|discriminate H].
    rewrite bind_lift_ok in H.
    destruct (index (tsv_width data) i); [|discriminate H].
    rewrite bind_lift_ok in H.
    destruct (index (tsv_height data) i); [|discriminate H].
    rewrite bind_lift_ok in H.
    destruct (index (tsv_conf data) i) as [v|] eqn:Hv; [|discriminate H].
    rewrite bind_lift_ok in H.
    unfold SimpleOcrService.div_100 in H.
    destruct (PyFloat.val_div v 100) as [conf|] eqn:Hc; [|discriminate H].
    rewrite bind_lift_ok in H.
    inversion H. right. exists raw, v, conf. eexists.
    split; [apply (proj1 (index_ok _ _ _)); exact Ht|].
    split; [exact Hb|].
    split; [apply (proj1 (index_ok _ _ _)); exact Hv|].
    split; [exact Hc | reflexivity].
  - inversion H. now left.
Qed.

Lemma try_except_ok {A} (m : M A) (h : exn -> M A) l a :
  try_except m h = (l, Ok a) ->
  m = (l, Ok a) \/
  exists l1 e l2, m = (l1, Raise e) /\ h e = (l2, Ok a) /\ l = l1 ++ l2.
Proof.
  unfold try_except. destruct m as [l1 [a1|e]].
  - intros H. now left.
  - destruct (h e) as [l2 r] eqn:Hh. intros H. inversion H; subst.
    right. exists l1, e, l2. auto.
Qed.

(** Every block the simplified service's engine wrapper returns satisfies
    [P] as soon as [P] holds of any block made from a non-blank row. *)
Lemma simple_blocks_forall (P : TextBlock -> Prop) E img l bs :
  (forall data i raw v conf bbox,
     image_to_data E img = Ok data ->
     nth_error (tsv_text data) i = Some raw -> Py.strip raw <> "" ->
     nth_error (tsv_conf data) i = Some v ->
     PyFloat.val_div v 100 = Some conf ->
     P (mkBlock (Py.strip raw) conf bbox (Some 1))) ->
  SimpleOcrService._ocr_image_tesseract E img = (l, Ok bs) ->
  Forall P bs.
Proof.
  intros HP H. unfold SimpleOcrService._ocr_image_tesseract in H.
  destruct (negb (TESSERACT_OK E)); [inversion H; constructor|].
  apply try_except_ok in H.
  destruct H as [H | (l1 & e & l2 & _ & H & _)]; [|inversion H; constructor].
  destruct (image_to_data E img) as [data|e] eqn:Hd; [|discriminate H].
  rewrite bind_call_ok in H. inversion H as [[Hl Hs]]. clear H Hl.
  destruct (for_each (seq 0 (length (tsv_text data))) []
              (SimpleOcrService.tesseract_row data)) as [l' r] eqn:Hloop.
  simpl in Hs. subst r.
  revert Hloop. apply (for_each_invariant (Forall P)); [|constructor].
  intros st i l0 st' Hst Hrow.
  apply simple_row_ok in Hrow.
  destruct Hrow as [-> | (raw & v & conf & bbox & Ht & Hs & Hv & Hc & ->)];
    [exact Hst|].
  apply Forall_app. split; [exact Hst|]. constructor; [|constructor].
  now apply (HP data i raw v conf bbox).
Qed.

Lemma simple_conf_within v conf :
  Spec.percent v -> PyFloat.val_div v 100 = Some conf ->
  PyFloat.within 0 1 conf.
Proof.
  destruct v as [z|f|s|]; simpl; intros Hp H; try discriminate;
    inversion H; subst conf.
  - apply within_percent_div.
    + change 0%Q with (inject_Z 0). rewrite <- Zle_Qle. lia.
    + change 100%Q with (inject_Z 100). rewrite <- Zle_Qle. lia.
  - destruct f as [q| | |]; try contradiction.
    destruct Hp. now apply within_percent_div.
Qed.

(** ** The digital path *)

Lemma span_blocks_spec pno d :
  span_blocks pno d = map (Spec.span_block pno) (concat (concat d)).
Proof.
  unfold span_blocks.
  induction d as [|block d IH]; simpl; [reflexivity|].
  rewrite IH, concat_app, map_app. f_equal.
  induction block as [|line block IHb]; simpl; [reflexivity|].
  rewrite IHb, map_app. reflexivity.
Qed.

Lemma digital_page_ok ta ba pno page l ta' ba' :
  digital_page (ta, ba) (pno, page) = (l, Ok (ta', ba')) ->
  exists t d,
    get_text_text page = Ok t /\ get_text_dict page = Ok d /\
    l = [] /\ ta' = ta ++ [t] /\
    ba' = ba ++ map (Spec.span_block pno) (Spec.page_spans page).
Proof.
  unfold digital_page. intros H.
  destruct (get_text_text page) as [t|] eqn:Ht; [|discriminate H].
  rewrite bind_lift_ok in H.
  destruct (get_text_dict page) as [d|] eqn:Hd; [|discriminate H].
  rewrite bind_lift_ok in H. inversion H; subst.
  exists t, d. unfold Spec.page_spans. rewrite Hd, span_blocks_spec. auto.
Qed.

Lemma digital_loop ps : forall start ta ba l ta' ba',
  for_each (enumerate start ps) (ta, ba) digital_page = (l, Ok (ta', ba')) ->
  l = [] /\
  ta' = ta ++ Spec.page_texts ps /\
  ba' = ba ++ Spec.digital_blocks start ps.
Proof.
  induction ps as [|p ps IH]; intros start ta ba l ta' ba' H; simpl in H.
  - inversion H; subst. unfold Spec.digital_blocks. simpl.
    now rewrite !app_nil_r.
  - apply bind_ok in H. destruct H as (l1 & [ta1 ba1] & l2 & H1 & H2 & ->).
    apply digital_page_ok in H1.
    destruct H1 as (t & d & Ht & Hd & -> & -> & ->).
    apply IH in H2. destruct H2 as (-> & -> & ->).
    split; [reflexivity|]. unfold Spec.digital_blocks. simpl.
    rewrite Ht, <- !app_assoc. split; reflexivity.
Qed.

(** A successful digital extraction calls no engine, joins the page texts
    with newlines and emits one block per span. *)
Lemma extract_digital_ok doc l p :
  _extract_digital_pdf doc = (l, Ok p) ->
  l = [] /\
  parsed_text p = Py.join Py.NL (Spec.page_texts (doc_pages doc)) /\
  parsed_blocks p = Spec.digital_blocks 0 (doc_pages doc) /\
  parsed_tables p = [].
Proof.
  unfold _extract_digital_pdf. intros H.
  apply bind_ok in H. destruct H as (l1 & [ta ba] & l2 & H1 & H2 & ->).
  apply digital_loop in H1. destruct H1 as (-> & -> & ->).
  inversion H2; subst. simpl. auto.
Qed.

Lemma digital_blocks_confidence start ps :
  Forall (fun b => b_confidence b = Fin 1%Q) (Spec.digital_blocks start ps).
Proof.
  unfold Spec.digital_blocks. apply Forall_forall. intros b Hb.
  apply in_flat_map in Hb. destruct Hb as ([pno page] & _ & Hb).
  apply in_map_iff in Hb. destruct Hb as (span & <- & _).
  unfold Spec.span_block. destruct (span_bbox span) as [[[x0 y0] x1] y1].
  reflexivity.
Qed.

Lemma span_block_text pno span : b_text (Spec.span_block pno span) = span_text span.
Proof.
  unfold Spec.span_block. destruct (span_bbox span) as [[[x0 y0] x1] y1].
  reflexivity.
Qed.

Lemma enumerate_snd {X} (xs : list X) start :
  map snd (enumerate start xs) = xs.
Proof.
  revert start. induction xs as [|x xs IH]; intros start; simpl;
    [reflexivity | now rewrite IH].
Qed.

Lemma digital_blocks_text start ps :
  map b_text (Spec.digital_blocks start ps) =
  map span_text (flat_map Spec.page_spans ps).
Proof.
  unfold Spec.digital_blocks. revert start.
  induction ps as [|p ps IH]; intros start; simpl; [reflexivity|].
  rewrite !map_app, IH. f_equal.
  rewrite map_map. apply map_ext. intros span. apply span_block_text.
Qed.

(** ** The primary engine *)

Lemma paddle_block_from_line line b :
  paddle_block line = Ok b -> Spec.from_line line b.
Proof.
  unfold paddle_block, to_float, Spec.from_line.
  destruct (pl_quad line) as [[[[x1 y1] [x2 y2]] [x3 y3]] [x4 y4]].
  destruct (PyFloat.of_val (pl_conf line)) as [f|]; [|discriminate].
  intros H. inversion H; subst. simpl. auto.
Qed.

Lemma paddle_loop lines : forall acc l st,
  for_each lines acc paddle_step = (l, Ok st) ->
  l = [] /\ exists bs, st = acc ++ bs /\ Forall2 Spec.from_line lines bs.
Proof.
  induction lines as [|line lines IH]; intros acc l st H; simpl in H.
  - inversion H; subst. split; [reflexivity|]. exists [].
    now rewrite app_nil_r.
  - apply bind_ok in H. destruct H as (l1 & a & l2 & H1 & H2 & ->).
    unfold paddle_step in H1.
    destruct (paddle_block line) as [b|] eqn:Hb; [|discriminate H1].
    rewrite bind_lift_ok in H1. inversion H1; subst.
    apply IH in H2. destruct H2 as (-> & bs & -> & HF).
    split; [reflexivity|]. exists (b :: bs).
    rewrite <- app_assoc. split; [reflexivity|].
    constructor; [now apply paddle_block_from_line | exact HF].
Qed.

(** A successful call of the primary engine returns its lines one for
    one, text and score unchanged. *)
Lemma paddle_ok E img l bs :
  PADDLE_OK E = true ->
  _ocr_image_paddle E img = (l, Ok bs) ->
  l = [CallPaddle img] /\
  exists res,
    paddle_ocr E img = Ok res /\
    Forall2 Spec.from_line (match res with Some ls => ls | None => [] end) bs.
Proof.
  intros Hok H. unfold _ocr_image_paddle in H. rewrite Hok in H.
  simpl negb in H. cbv iota in H.
  destruct (paddle_ocr E img) as [res|] eqn:Hres; [|discriminate H].
  rewrite bind_call_ok in H. inversion H as [[Hl Hs]]. clear H.
  destruct (for_each (match res with Some ls => ls | None => [] end) []
              paddle_step) as [l' r] eqn:Hloop.
  simpl in *. subst r. apply paddle_loop in Hloop.
  destruct Hloop as (-> & bs' & -> & HF).
  split; [reflexivity|]. exists res. split; [reflexivity | exact HF].
Qed.

(** ** C4: what every emitted block satisfies *)

(** C4 as stated fails: the digital path emits a block for a span that
    holds a single space. *)
Lemma C4_blank_span_counterexample :
  extract (Fixtures.pdf_env Fixtures.doc_blank_span)
          (Fixtures.upload "invoice.pdf" "%PDF-1.7") true =
    ([CallFitzOpen "%PDF-1.7"],
     Ok (mkJSON 200 (Extraction
       (mkResponse "invoice.pdf" (Some "application/pdf") 1 (Some true)
          ("Invoice " ++ Fixtures.repeat_string 120 "7" ++ Py.NL)%string
          [mkBlock "Invoice" (Fin 1%Q) [0; 0; 10; 10]%Q (Some 1);
           mkBlock " " (Fin 1%Q) [0; 0; 10; 10]%Q (Some 1);
           mkBlock (Fixtures.repeat_string 120 "7") (Fin 1%Q)
                   [0; 0; 10; 10]%Q (Some 1)]
          [] (Some "pymupdf"))))) /\
  ~ Spec.textblock_ok (mkBlock " " (Fin 1%Q) [0; 0; 10; 10]%Q (Some 1)).
Proof.
  split; [vm_compute; reflexivity|].
  intros [H _]. apply H. reflexivity.
Qed.

Lemma main_tesseract_unavailable E img l bs :
  TESSERACT_OK E = false ->
  _ocr_image_tesseract E img = (l, Ok bs) -> bs = [].
Proof.
  intros Hok H. unfold _ocr_image_tesseract in H. rewrite Hok in H.
  inversion H. reflexivity.
Qed.

Lemma main_tesseract_data E img l bs :
  TESSERACT_OK E = true ->
  _ocr_image_tesseract E img = (l, Ok bs) ->
  exists tsv, image_to_data E img = Ok tsv.
Proof.
  intros Hok H. unfold _ocr_image_tesseract in H. rewrite Hok in H.
  simpl negb in H. cbv iota in H.
  destruct (image_to_data E img) as [tsv|]; [eauto | discriminate H].
Qed.

(** C4, amended: the blocks of the secondary engine, in either service,
    have text that is non-empty after trimming; their confidence lies in
    [0, 1] when the native confidences convert to numbers that do not
    exceed 100 (main service) or are numbers within [0, 100] (simplified
    service).  Digital blocks have confidence exactly 1.0 and carry the
    span texts as they are; primary-engine blocks carry the text and the
    score of their lines as they are. *)
Theorem C4_block_invariants E img doc :
  (forall l bs,
     _ocr_image_tesseract E img = (l, Ok bs) ->
     Forall Spec.text_nonblank bs /\
     (forall tsv, image_to_data E img = Ok tsv ->
        Forall Spec.at_most_100 (tsv_conf tsv) ->
        Forall Spec.textblock_ok bs)) /\
  (forall l bs,
     SimpleOcrService._ocr_image_tesseract E img = (l, Ok bs) ->
     Forall Spec.text_nonblank bs /\
     (forall data, image_to_data E img = Ok data ->
        Forall Spec.percent (tsv_conf data) ->
        Forall Spec.textblock_ok bs)) /\
  (forall l p,
     _extract_digital_pdf doc = (l, Ok p) ->
     Forall (fun b => b_confidence b = Fin 1%Q) (parsed_blocks p) /\
     map b_text (parsed_blocks p) =
       map span_text (flat_map Spec.page_spans (doc_pages doc))) /\
  (forall l bs,
     PADDLE_OK E = true ->
     _ocr_image_paddle E img = (l, Ok bs) ->
     exists res,
       paddle_ocr E img = Ok res /\
       Forall2 Spec.from_line
               (match res with Some ls => ls | None => [] end) bs).
Proof.
  split; [|split; [|split]].
  - intros l bs H. destruct (TESSERACT_OK E) eqn:Hok.
    + destruct (main_tesseract_data E img l bs Hok H) as [tsv Hd]. split.
      * apply (tesseract_blocks_forall _ E img tsv l bs Hok Hd); [|exact H].
        intros i txt bbox _ Hs. exact Hs.
      * intros tsv' Hd' Hall. rewrite Hd in Hd'. inversion Hd'; subst tsv'.
        apply (tesseract_blocks_forall _ E img tsv l bs Hok Hd); [|exact H].
        intros i txt bbox _ Hs. split; [exact Hs|].
        now apply tesseract_conf_within.
    + rewrite (main_tesseract_unavailable E img l bs Hok H).
      split; [constructor | intros; constructor].
  - intros l bs H. split.
    + apply (simple_blocks_forall _ E img l bs); [|exact H].
      intros data i raw v conf bbox _ _ Hs _ _.
      unfold Spec.text_nonblank. simpl. now rewrite strip_idem.
    + intros data Hd Hall.
      apply (simple_blocks_forall _ E img l bs); [|exact H].
      intros data' i raw v conf bbox Hd' _ Hs Hv Hc.
      rewrite Hd in Hd'. inversion Hd'; subst data'. split.
      * unfold Spec.text_nonblank. simpl. now rewrite strip_idem.
      * simpl. apply (simple_conf_within v); [|exact Hc].
        apply nth_error_In in Hv.
        exact (proj1 (Forall_forall _ _) Hall v Hv).
  - intros l p H. apply extract_digital_ok in H.
    destruct H as (_ & _ & Hb & _). rewrite Hb. split.
    + apply digital_blocks_confidence.
    + apply digital_blocks_text.
  - intros l bs Hok H. destruct (paddle_ok E img l bs Hok H) as (_ & res & Hr).
    exists res. exact Hr.
Qed.

Lemma C4_block_invariants_witness :
  Forall Spec.textblock_ok
    [mkBlock "Invoice" (Fin (87 # 100)) [10; 20; 80; 32]%Q None;
     mkBlock "Total" (Fin 0%Q) [90; 20; 130; 32]%Q None].
Proof.
  refine (proj2 (proj1 (C4_block_invariants
                          (Fixtures.tess_env Fixtures.tsv_scenario_C)
                          Fixtures.img0 Fixtures.doc_empty)
                       [CallTesseract Fixtures.img0] _ _)
                Fixtures.tsv_scenario_C eq_refl _).
  - vm_compute. reflexivity.
  - repeat constructor.
Defined.

(** ** The OCR cascade *)

Lemma for_each_log_nil {S X} (body : S -> X -> M S) :
  (forall st x, fst (body st x) = []) ->
  forall xs st, fst (for_each xs st body) = [].
Proof.
  intros Hb xs. induction xs as [|x xs IH]; intros st; simpl; [reflexivity|].
  unfold bind. specialize (Hb st x).
  destruct (body st x) as [l [st'|e]]; simpl in Hb; subst l; [|reflexivity].
  specialize (IH st'). destruct (for_each xs st' body) as [l' r].
  simpl in *. exact IH.
Qed.

Lemma bind_lift_log {A B} (r : result A) (f : A -> M B) :
  (forall a, fst (f a) = []) -> fst (bind (lift r) f) = [].
Proof.
  intros Hf. destruct r as [a|e]; [|reflexivity].
  rewrite bind_lift_ok. apply Hf.
Qed.

Lemma paddle_step_log st line : fst (paddle_step st line) = [].
Proof. unfold paddle_step. apply bind_lift_log. reflexivity. Qed.

Lemma tesseract_row_log tsv st i : fst (tesseract_row tsv st i) = [].
Proof.
  unfold tesseract_row. apply bind_lift_log. intros txt.
  destruct (negb (Py.truthy txt) || (Py.strip txt =? "")%string);
    [reflexivity|].
  repeat (apply bind_lift_log; intros ?). reflexivity.
Qed.

Lemma bind_call_log {A B} c (r : result A) (f : A -> M B) :
  (forall a, fst (f a) = []) -> fst (bind (call c r) f) = [c].
Proof.
  intros Hf. destruct r as [a|e]; [|reflexivity].
  rewrite bind_call_ok. simpl. now rewrite Hf.
Qed.

Lemma paddle_log E img :
  PADDLE_OK E = true -> log_of (_ocr_image_paddle E img) = [CallPaddle img].
Proof.
  intros Hok. unfold _ocr_image_paddle, log_of. rewrite Hok. simpl negb.
  cbv iota. apply bind_call_log. intros res.
  apply for_each_log_nil. apply paddle_step_log.
Qed.

Lemma tesseract_log E img :
  TESSERACT_OK E = true ->
  log_of (_ocr_image_tesseract E img) = [CallTesseract img].
Proof.
  intros Hok. unfold _ocr_image_tesseract, log_of. rewrite Hok. simpl negb.
  cbv iota. apply bind_call_log. intros tsv.
  apply for_each_log_nil. apply tesseract_row_log.
Qed.

Lemma pair_eta {A B} (p : A * B) : p = (fst p, snd p).
Proof. destruct p; reflexivity. Qed.


Lemma cascade_primary_raises E img e :
  PADDLE_OK E = true ->
  outcome (_ocr_image_paddle E img) = Raise e ->
  ocr_cascade E img = ([CallPaddle img], Raise e).
Proof.
  intros Hok Hp. unfold ocr_cascade. rewrite Hok.
  rewrite (pair_eta (_ocr_image_paddle E img)).
  fold (log_of (_ocr_image_paddle E img)).
  fold (outcome (_ocr_image_paddle E img)).
  rewrite Hp, (paddle_log E img Hok). reflexivity.
Qed.









(** Scenario B: a one-page PDF without selectable text, a primary engine
    that returns three lines; the secondary engine is not called. *)
Example scenario_B :
  extract Fixtures.both_env (Fixtures.upload "scan.pdf" "%PDF-1.7") true =
    ([CallFitzOpen "%PDF-1.7"; CallImageOpen "png";
      CallPaddle (RGBImage "png")],
     Ok (mkJSON 200 (Extraction
       (mkResponse "scan.pdf" (Some "application/pdf") 1 (Some false)
          "NovaAgent Invoice Total"
          [mkBlock "NovaAgent" (Fin (99 # 100)) [0; 0; 50; 10]%Q (Some 1);
           mkBlock "Invoice" (Fin (95 # 100)) [0; 20; 50; 30]%Q (Some 1);
           mkBlock "Total" (Fin (90 # 100)) [0; 40; 50; 50]%Q (Some 1)]
          [] (Some "ocr"))))).
Proof. vm_compute. reflexivity. Qed.

(** Scenario C: only the secondary engine, confidences "87" and "n/a". *)
Example scenario_C :
  ocr_cascade (Fixtures.tess_env Fixtures.tsv_scenario_C) Fixtures.img0 =
    ([CallTesseract Fixtures.img0],
     Ok [mkBlock "Invoice" (Fin (87 # 100)) [10; 20; 80; 32]%Q None;
         mkBlock "Total" (Fin 0%Q) [90; 20; 130; 32]%Q None]).
Proof. vm_compute. reflexivity. Qed.

(** ** Table extraction *)

Lemma convert_tables_acc p_idx ts : forall acc,
  convert_tables p_idx ts acc =
  (acc ++ fst (convert_tables p_idx ts []), snd (convert_tables p_idx ts [])).
Proof.
  induction ts as [|t ts IH]; intros acc; simpl.
  - now rewrite app_nil_r.
  - destruct t as [t|]; [|apply IH].
    destruct (pt_cells t); [apply IH|].
    destruct (pt_extract t) as [rows|e]; [|now rewrite app_nil_r].
    destruct (map (map clean_cell) rows) as [|r m]; [apply IH|].
    rewrite (IH (acc ++ [mkTable (p_idx + 1) (r :: m) "pdfplumber"])).
    simpl app.
    rewrite (IH [mkTable (p_idx + 1) (r :: m) "pdfplumber"]).
    simpl. now rewrite <- app_assoc.
Qed.

Lemma convert_tables_returns p_idx ts :
  Spec.extract_returns ts ->
  convert_tables p_idx ts [] = (flat_map (Spec.table_of p_idx) ts, Ok tt).
Proof.
  induction 1 as [|t ts Ht _ IH]; [reflexivity|].
  cbn [flat_map convert_tables]. unfold Spec.table_of at 1.
  destruct t as [t|]; [|exact IH].
  destruct (pt_cells t) as [|c cs]; [exact IH|].
  destruct Ht as [rows Hrows]. rewrite Hrows.
  destruct rows as [|r rows]; [exact IH|].
  cbn [map]. rewrite convert_tables_acc, IH. reflexivity.
Qed.

Lemma page_tables_run acc ip :
  page_tables acc ip =
  (Spec.page_calls ip, Ok (acc ++ Spec.page_contribution ip)).
Proof.
  destruct ip as [p_idx page].
  unfold page_tables, Spec.page_calls, Spec.page_contribution.
  destruct (find_tables page LinesStrategy) as [a|e]; simpl.
  - destruct (find_tables page TextStrategy) as [b|e]; simpl.
    + now rewrite convert_tables_acc.
    + now rewrite app_nil_r.
  - now rewrite app_nil_r.
Qed.

Lemma tables_loop ips : forall acc,
  for_each ips acc page_tables =
  (flat_map Spec.page_calls ips,
   Ok (acc ++ flat_map Spec.page_contribution ips)).
Proof.
  induction ips as [|ip ips IH]; intros acc; simpl.
  - now rewrite app_nil_r.
  - rewrite page_tables_run. unfold bind. rewrite IH.
    now rewrite <- app_assoc.
Qed.

Lemma extract_tables_run E file_bytes pdf_pages :
  PLUMBER_OK E = true ->
  plumber_open E file_bytes = Ok pdf_pages ->
  _extract_tables_plumber E file_bytes =
  (CallPlumberOpen file_bytes ::
     flat_map Spec.page_calls (enumerate 0 pdf_pages),
   Ok (flat_map Spec.page_contribution (enumerate 0 pdf_pages))).
Proof.
  intros Hok Hopen. unfold _extract_tables_plumber.
  rewrite Hok, Hopen. simpl negb. cbv iota.
  rewrite bind_call_ok, tables_loop. reflexivity.
Qed.

(** Table extraction never lets an exception out. *)
Lemma extract_tables_total E file_bytes :
  exists ts, outcome (_extract_tables_plumber E file_bytes) = Ok ts.
Proof.
  unfold _extract_tables_plumber.
  destruct (PLUMBER_OK E); simpl negb; cbv iota; [|eexists; reflexivity].
  destruct (plumber_open E file_bytes) as [ps|e]; [|eexists; reflexivity].
  rewrite bind_call_ok, tables_loop. eexists; reflexivity.
Qed.

(** C6 as stated fails: a table found by the line-based strategy is lost
    when the text-based strategy raises on the same page, and after a
    failure of the line-based strategy the text-based one is not run on
    that page. *)
Lemma C6_strategy_failure_counterexample :
  find_tables Fixtures.page_text_fails LinesStrategy = Ok [Some Fixtures.tbl] /\
  Spec.table_of 0 (Some Fixtures.tbl) = [mkTable 1 [["a"; ""]] "pdfplumber"] /\
  _extract_tables_plumber (Fixtures.plumber_env [Fixtures.page_text_fails])
                          "%PDF-1.7" =
    ([CallPlumberOpen "%PDF-1.7"; CallFindTables 0 LinesStrategy;
      CallFindTables 0 TextStrategy], Ok []) /\
  find_tables Fixtures.page_lines_fails TextStrategy = Ok [Some Fixtures.tbl] /\
  _extract_tables_plumber (Fixtures.plumber_env [Fixtures.page_lines_fails])
                          "%PDF-1.7" =
    ([CallPlumberOpen "%PDF-1.7"; CallFindTables 0 LinesStrategy], Ok []).
Proof. repeat split; vm_compute; reflexivity. Qed.

(** C6, amended: on every page the line-based detection is run first and
    the text-based one second, the second only when the first returns;
    when both return and no row extraction raises, every table found by
    either that has cells and a non-empty row matrix is collected, those of
    the line-based detection first; a detection that raises makes its page
    contribute nothing and leaves the other pages untouched; table
    extraction itself never raises. *)
Theorem C6_table_extraction E file_bytes pdf_pages :
  PLUMBER_OK E = true ->
  plumber_open E file_bytes = Ok pdf_pages ->
  _extract_tables_plumber E file_bytes =
    (CallPlumberOpen file_bytes ::
       flat_map Spec.page_calls (enumerate 0 pdf_pages),
     Ok (flat_map Spec.page_contribution (enumerate 0 pdf_pages))) /\
  (forall p_idx page a b,
     find_tables page LinesStrategy = Ok a ->
     find_tables page TextStrategy = Ok b ->
     Spec.extract_returns (a ++ b) ->
     Spec.page_contribution (p_idx, page) =
       flat_map (Spec.table_of p_idx) a ++ flat_map (Spec.table_of p_idx) b /\
     Spec.page_calls (p_idx, page) =
       [CallFindTables p_idx LinesStrategy; CallFindTables p_idx TextStrategy]) /\
  (forall p_idx page e,
     find_tables page LinesStrategy = Raise e \/
     find_tables page TextStrategy = Raise e ->
     Spec.page_contribution (p_idx, page) = []) /\
  (forall p_idx page e,
     find_tables page LinesStrategy = Raise e ->
     Spec.page_calls (p_idx, page) = [CallFindTables p_idx LinesStrategy]).
Proof.
  intros Hok Hopen. split; [now apply extract_tables_run|].
  split; [|split].
  - intros p_idx page a b Ha Hb Hret.
    unfold Spec.page_contribution, Spec.page_calls. rewrite Ha, Hb.
    rewrite (convert_tables_returns p_idx (a ++ b) Hret). simpl.
    now rewrite flat_map_app.
  - intros p_idx page e [H|H]; unfold Spec.page_contribution; rewrite H;
      [reflexivity|].
    destruct (find_tables page LinesStrategy); reflexivity.
  - intros p_idx page e H. unfold Spec.page_calls. now rewrite H.
Qed.

Lemma C6_table_extraction_witness :
  _extract_tables_plumber
    (Fixtures.plumber_env [Fixtures.page_text_fails; Fixtures.page_both])
    "%PDF-1.7" =
  ([CallPlumberOpen "%PDF-1.7";
    CallFindTables 0 LinesStrategy; CallFindTables 0 TextStrategy;
    CallFindTables 1 LinesStrategy; CallFindTables 1 TextStrategy],
   Ok [mkTable 2 [["a"; ""]] "pdfplumber"; mkTable 2 [["a"; ""]] "pdfplumber"]).
Proof.
  rewrite (proj1 (C6_table_extraction
                    (Fixtures.plumber_env
                       [Fixtures.page_text_fails; Fixtures.page_both])
                    "%PDF-1.7" [Fixtures.page_text_fails; Fixtures.page_both]
                    eq_refl eq_refl)).
  vm_compute. reflexivity.
Defined.

(** ** Text and blocks *)

Lemma set_page_text p b : b_text (set_page p b) = b_text b.
Proof. reflexivity. Qed.






Lemma tag_pages_cons start bs bss :
  Spec.tag_pages start (bs :: bss) =
  map (set_page (start + 1)) bs ++ Spec.tag_pages (S start) bss.
Proof. reflexivity. Qed.



Lemma scanned_page_ok E texts ba pno page l texts' ba' :
  scanned_page E (texts, ba) (pno, page) = (l, Ok (texts', ba')) ->
  exists bs,
    texts' = texts ++ [_merge_blocks_to_text bs] /\
    ba' = ba ++ map (set_page (pno + 1)) bs.
Proof.
  unfold scanned_page. intros H.
  apply bind_ok in H. destruct H as (l1 & png & l2 & _ & H & _).
  apply bind_ok in H. destruct H as (l3 & img & l4 & _ & H & _).
  apply bind_ok in H. destruct H as (l5 & bs & l6 & _ & H & _).
  inversion H; subst. exists bs. auto.
Qed.

Lemma scanned_loop E ps : forall start texts ba l texts' ba',
  for_each (enumerate start ps) (texts, ba) (scanned_page E) =
    (l, Ok (texts', ba')) ->
  exists bss,
    length bss = length ps /\
    texts' = texts ++ map _merge_blocks_to_text bss /\
    ba' = ba ++ Spec.tag_pages start bss.
Proof.
  induction ps as [|p ps IH]; intros start texts ba l texts' ba' H;
    simpl in H.
  - inversion H; subst. exists []. simpl. now rewrite !app_nil_r.
  - apply bind_ok in H. destruct H as (l1 & [t1 b1] & l2 & H1 & H2 & _).
    apply scanned_page_ok in H1. destruct H1 as (bs & -> & ->).
    apply IH in H2. destruct H2 as (bss & Hlen & -> & ->).
    exists (bs :: bss). split; [simpl; now rewrite Hlen|].
    rewrite tag_pages_cons, <- !app_assoc. split; reflexivity.
Qed.

(** A successful scanned extraction: the text is the newline join of the
    per-page merged texts, and the blocks are the per-page lists tagged
    with their page numbers. *)
Lemma extract_scanned_ok E doc l p :
  _extract_scanned_pdf E doc = (l, Ok p) ->
  exists bss,
    length bss = page_count doc /\
    parsed_text p = Py.join Py.NL (map _merge_blocks_to_text bss) /\
    parsed_blocks p = Spec.tag_pages 0 bss /\
    parsed_tables p = [].
Proof.
  unfold _extract_scanned_pdf. intros H.
  apply bind_ok in H. destruct H as (l1 & [texts ba] & l2 & H1 & H2 & _).
  apply scanned_loop in H1. destruct H1 as (bss & Hlen & -> & ->).
  inversion H2; subst. exists bss. simpl. auto.
Qed.




Lemma extract_pdf_ok E fname mime file_bytes want_tables l resp :
  extract_pdf E fname mime file_bytes want_tables = (l, Ok resp) ->
  exists doc,
    fitz_open E file_bytes = Ok doc /\
    ((exists l1 p ts,
        _extract_digital_pdf doc = (l1, Ok p) /\
        resp = mkJSON 200 (Extraction
                 (mkResponse fname (Some mime) (page_count doc) (Some true)
                    (parsed_text p) (parsed_blocks p) ts (Some "pymupdf")))) \/
     (exists l1 p,
        _extract_scanned_pdf E doc = (l1, Ok p) /\
        resp = mkJSON 200 (Extraction
                 (mkResponse fname (Some mime) (page_count doc) (Some false)
                    (parsed_text p) (parsed_blocks p) [] (Some "ocr"))))).
Proof.
  unfold extract_pdf. intros H.
  apply bind_ok in H. destruct H as (l1 & doc & l2 & Hopen & H & _).
  assert (fitz_open E file_bytes = Ok doc) as Hdoc
      by (unfold call in Hopen; now inversion Hopen).
  exists doc. split; [exact Hdoc|].
  apply bind_ok in H.
  destruct H as (l3 & [[[engine txt] bs] ts] & l4 & Hsel & H & _).
  inversion H; subst resp; clear H.
  destruct (negb (Qle_bool (_page_text_ratio doc) (1 # 10))).
  - left. apply bind_ok in Hsel. destruct Hsel as (la & p & lb & Hp & Hsel & _).
    apply bind_ok in Hsel. destruct Hsel as (lc & ts' & ld & _ & Hsel & _).
    inversion Hsel; subst. exists la, p, ts. auto.
  - right. apply bind_ok in Hsel. destruct Hsel as (la & p & lb & Hp & Hsel & _).
    inversion Hsel; subst. exists la, p. auto.
Qed.

Lemma extract_image_ok E fname mime file_bytes l r :
  extract_image E fname mime file_bytes = (l, Ok (mkJSON 200 (Extraction r))) ->
  exists blk,
    r = mkResponse fname (Some mime) 1 None (_merge_blocks_to_text blk)
                   (map (set_page 1) blk) [] (Some "ocr").
Proof.
  unfold extract_image. intros H.
  destruct (negb (PADDLE_OK E || TESSERACT_OK E)); [discriminate H|].
  apply bind_ok in H. destruct H as (l1 & img & l2 & _ & H & _).
  apply bind_ok in H. destruct H as (l3 & blk & l4 & _ & H & _).
  inversion H; subst. exists blk. reflexivity.
Qed.





(** On the OCR path a block with empty text is emitted but left out of
    the text. *)
Example ocr_gap_block :
  extract Fixtures.gap_env (Fixtures.upload "scan.png" "PNG") true =
    ([CallImageOpen "PNG"; CallPaddle (RGBImage "PNG")],
     Ok (mkJSON 200 (Extraction
       (mkResponse "scan.png" (Some "image") 1 None "a b"
          [mkBlock "a" (Fin (99 # 100)) [0; 0; 50; 10]%Q (Some 1);
           mkBlock "" (Fin (10 # 100)) [0; 20; 50; 30]%Q (Some 1);
           mkBlock "b" (Fin (90 # 100)) [0; 40; 50; 50]%Q (Some 1)]
          [] (Some "ocr"))))).
Proof. vm_compute. reflexivity. Qed.

(** ** Conversions to float *)

Example float_87 : PyFloat.of_string "87" = Some (Fin (87 # 1)).
Proof. reflexivity. Qed.
Example float_na : PyFloat.of_string "n/a" = None.
Proof. reflexivity. Qed.
Example float_neg1 : PyFloat.of_string "-1" = Some (Fin (-1 # 1)).
Proof. reflexivity. Qed.
Example float_frac : PyFloat.of_string " 96.5e-1 " = Some (Fin (965 # 100)).
Proof. reflexivity. Qed.
Example float_us : PyFloat.of_string "1_0" = Some (Fin (10 # 1)).
Proof. reflexivity. Qed.
Example float_bad_us : PyFloat.of_string "1__0" = None.
Proof. reflexivity. Qed.
Example float_bad_exp : PyFloat.of_string "1e" = None.
Proof. reflexivity. Qed.
Example float_dot : PyFloat.of_string "." = None.
Proof. reflexivity. Qed.
Example float_inf : PyFloat.of_string "-Infinity" = Some NegInf.
Proof. reflexivity. Qed.

(* ===================================================================== *)
(** * Further properties of the services *)
(* ===================================================================== *)

(** ** File names and media types *)

Lemma prefix_iff p s :
  String.prefix p s = true <-> exists suf, s = (p ++ suf)%string.
Proof.
  revert s. induction p as [|c p IH]; intros s; simpl.
  - split; [intros _; now exists s | intros _; now destruct s].
  - destruct s as [|d s].
    + split; [discriminate | intros [suf H]; discriminate H].
    + simpl. destruct (Ascii.ascii_dec c d) as [->|Hne].
      * rewrite IH. split; intros [suf H]; exists suf.
        -- now rewrite H.
        -- now inversion H.
      * split; [discriminate|]. intros [suf H]. inversion H. congruence.
Qed.

Lemma string_app_nil_r s : (s ++ "")%string = s.
Proof. induction s as [|c s IH]; simpl; [reflexivity | now rewrite IH]. Qed.

Lemma string_app_assoc a b c :
  ((a ++ b) ++ c)%string = (a ++ (b ++ c))%string.
Proof. induction a as [|x a IH]; simpl; [reflexivity | now rewrite IH]. Qed.

Lemma rev_string_app a b :
  Py.rev_string (a ++ b) = (Py.rev_string b ++ Py.rev_string a)%string.
Proof.
  induction a as [|c a IH]; simpl.
  - now rewrite string_app_nil_r.
  - now rewrite IH, string_app_assoc.
Qed.

Lemma rev_string_involutive s : Py.rev_string (Py.rev_string s) = s.
Proof.
  induction s as [|c s IH]; simpl; [reflexivity|].
  now rewrite rev_string_app, IH.
Qed.

(** [s.endswith(p)] holds exactly when [s] is some string followed by
    [p]. *)
Lemma endswith_iff s p :
  Py.endswith s p = true <-> exists stem, s = (stem ++ p)%string.
Proof.
  unfold Py.endswith. rewrite prefix_iff. split.
  - intros [suf H]. exists (Py.rev_string suf).
    rewrite <- (rev_string_involutive s), H, rev_string_app.
    now rewrite rev_string_involutive.
  - intros [stem ->]. exists (Py.rev_string stem). apply rev_string_app.
Qed.

Lemma lower_char_idem c : Py.lower_char (Py.lower_char c) = Py.lower_char c.
Proof.
  destruct c as [[] [] [] [] [] [] [] []]; vm_compute; reflexivity.
Qed.

Lemma lower_idem s : Py.lower (Py.lower s) = Py.lower s.
Proof.
  induction s as [|c s IH]; simpl; [reflexivity|].
  now rewrite lower_char_idem, IH.
Qed.

(** The image suffixes [_guess_mime] knows. *)
Lemma endswith_any_iff s ps :
  Py.endswith_any s ps = true <->
  exists ext stem, In ext ps /\ s = (stem ++ ext)%string.
Proof.
  unfold Py.endswith_any. rewrite existsb_exists. split.
  - intros (ext & Hin & H). apply endswith_iff in H. destruct H as [stem H].
    exists ext, stem. auto.
  - intros (ext & stem & Hin & H). exists ext. split; [exact Hin|].
    apply endswith_iff. now exists stem.
Qed.

(** X1: [_guess_mime] answers one of three media types; it answers
    "application/pdf" exactly for names that end, in any letter case, in
    ".pdf", "image" exactly for the other names that end in one of the
    seven image suffixes, and "application/octet-stream" for the rest. *)
Theorem guess_mime_by_suffix (name : string) :
  let pdf := exists stem, Py.lower name = (stem ++ ".pdf")%string in
  let img := exists ext stem,
               In ext [".png"; ".jpg"; ".jpeg"; ".webp"; ".tif"; ".tiff"; ".bmp"]
               /\ Py.lower name = (stem ++ ext)%string in
  (_guess_mime name = "application/pdf" <-> pdf) /\
  (_guess_mime name = "image" <-> ~ pdf /\ img) /\
  (_guess_mime name = "application/octet-stream" <-> ~ pdf /\ ~ img).
Proof.
  intros pdf img. subst pdf img. unfold _guess_mime.
  rewrite <- endswith_iff, <- endswith_any_iff.
  destruct (Py.endswith (Py.lower name) ".pdf").
  - repeat split; try discriminate; try tauto; intros [H _]; now elim H.
  - match goal with |- context [Py.endswith_any ?a ?b] =>
      destruct (Py.endswith_any a b) end;
      repeat split; try discriminate; try tauto;
      try (intros [_ H]; try discriminate H; now elim H).
Qed.

(** The media type does not depend on the letter case of the name. *)
Lemma guess_mime_case_insensitive (name other : string) :
  Py.lower name = Py.lower other -> _guess_mime name = _guess_mime other.
Proof. intros H. unfold _guess_mime. now rewrite H. Qed.

Lemma guess_mime_lower name : _guess_mime (Py.lower name) = _guess_mime name.
Proof. apply guess_mime_case_insensitive, lower_idem. Qed.

(** ** Which engines a request reaches *)

Lemma bind_log_forall {A B} (P : Call -> Prop) (m : M A) (f : A -> M B) :
  Forall P (fst m) -> (forall a, Forall P (fst (f a))) ->
  Forall P (fst (bind m f)).
Proof.
  intros Hm Hf. unfold bind. destruct m as [l [a|e]]; [|exact Hm].
  specialize (Hf a). destruct (f a) as [l' r]. simpl in *.
  apply Forall_app. auto.
Qed.

Lemma for_each_log_forall {S X} (P : Call -> Prop) (body : S -> X -> M S) :
  (forall st x, Forall P (fst (body st x))) ->
  forall xs st, Forall P (fst (for_each xs st body)).
Proof.
  intros Hb xs. induction xs as [|x xs IH]; intros st; simpl; [constructor|].
  apply bind_log_forall; [apply Hb | intros a; apply IH].
Qed.

Lemma lift_log {A} (P : Call -> Prop) (r : result A) : Forall P (fst (lift r)).
Proof. constructor. Qed.

Lemma ret_log {A} (P : Call -> Prop) (a : A) : Forall P (fst (ret a)).
Proof. constructor. Qed.

Lemma call_log {A} (P : Call -> Prop) c (r : result A) :
  P c -> Forall P (fst (call c r)).
Proof. intros H. repeat constructor. exact H. Qed.

Lemma try_except_log {A} (P : Call -> Prop) (m : M A) h :
  Forall P (fst m) -> (forall e, Forall P (fst (h e))) ->
  Forall P (fst (try_except m h)).
Proof.
  intros Hm Hh. unfold try_except. destruct m as [l [a|e]]; [exact Hm|].
  specialize (Hh e). destruct (h e) as [l' r]. simpl in *.
  apply Forall_app. auto.
Qed.

Lemma cascade_log E img :
  Forall Spec.is_ocr_call (log_of (ocr_cascade E img)).
Proof.
  unfold log_of, ocr_cascade. apply bind_log_forall.
  - destruct (PADDLE_OK E) eqn:Hp; [|constructor].
    fold (log_of (_ocr_image_paddle E img)). rewrite (paddle_log E img Hp).
    repeat constructor.
  - intros [|b bs]; [|constructor].
    destruct (TESSERACT_OK E) eqn:Ht; [|constructor].
    fold (log_of (_ocr_image_tesseract E img)).
    rewrite (tesseract_log E img Ht). repeat constructor.
Qed.

Lemma scanned_log E doc :
  Forall Spec.is_ocr_call (log_of (_extract_scanned_pdf E doc)).
Proof.
  unfold log_of, _extract_scanned_pdf. apply bind_log_forall.
  - apply for_each_log_forall. intros [texts ba] [pno page].
    unfold scanned_page. apply bind_log_forall; [apply lift_log|].
    intros png. apply bind_log_forall; [apply call_log; exact I|].
    intros img. apply bind_log_forall; [apply cascade_log|].
    intros bs. apply ret_log.
  - intros [texts ba]. apply ret_log.
Qed.

Lemma digital_log doc : log_of (_extract_digital_pdf doc) = [].
Proof.
  unfold log_of, _extract_digital_pdf.
  assert (H : fst (for_each (enumerate 0 (doc_pages doc)) ([], [])
                     digital_page) = []).
  { apply for_each_log_nil. intros [ta ba] [pno page]. unfold digital_page.
    apply bind_lift_log. intros t. apply bind_lift_log. reflexivity. }
  unfold bind.
  destruct (for_each (enumerate 0 (doc_pages doc)) ([], []) digital_page)
    as [l [[ta ba]|e]]; simpl in *; subst l; reflexivity.
Qed.

Lemma tables_log E file_bytes :
  Forall Spec.is_table_call (log_of (_extract_tables_plumber E file_bytes)).
Proof.
  unfold log_of, _extract_tables_plumber.
  destruct (negb (PLUMBER_OK E)); [constructor|].
  apply try_except_log; [|intros e; constructor].
  apply bind_log_forall; [apply call_log; exact I|].
  intros ps. apply for_each_log_forall. intros acc [p_idx page].
  unfold page_tables. apply try_except_log; [|intros e; constructor].
  apply bind_log_forall; [apply call_log; exact I|]. intros a.
  apply bind_log_forall; [apply call_log; exact I|]. intros b.
  apply ret_log.
Qed.

(** The log of the PDF branch under a bound on the table calls. *)
Lemma extract_pdf_log (P : Call -> Prop) E fname mime file_bytes want_tables :
  (forall b, P (CallFitzOpen b)) ->
  (forall c, Spec.is_ocr_call c -> P c) ->
  (want_tables = true -> PLUMBER_OK E = true ->
   forall c, Spec.is_table_call c -> P c) ->
  Forall P (log_of (extract_pdf E fname mime file_bytes want_tables)).
Proof.
  intros Hf Ho Ht. unfold log_of, extract_pdf.
  apply bind_log_forall; [apply call_log, Hf|]. intros doc.
  apply bind_log_forall; [|intros [[[engine txt] bs] ts]; apply ret_log].
  destruct (negb (Qle_bool (_page_text_ratio doc) (1 # 10))).
  - apply bind_log_forall.
    + fold (log_of (_extract_digital_pdf doc)). rewrite digital_log.
      constructor.
    + intros p. apply bind_log_forall; [|intros ts; apply ret_log].
      destruct want_tables; [|constructor].
      destruct (PLUMBER_OK E); [|constructor].
      eapply Forall_impl; [|apply tables_log]. now apply Ht.
  - apply bind_log_forall; [|intros p; apply ret_log].
    eapply Forall_impl; [|apply scanned_log]. exact Ho.
Qed.

Lemma extract_image_log E fname mime file_bytes :
  Forall Spec.is_ocr_call (log_of (extract_image E fname mime file_bytes)).
Proof.
  unfold log_of, extract_image.
  destruct (negb (PADDLE_OK E || TESSERACT_OK E)); [constructor|].
  apply bind_log_forall; [apply call_log; exact I|]. intros img.
  apply bind_log_forall; [apply cascade_log|]. intros blk. apply ret_log.
Qed.

Lemma extract_log (P : Call -> Prop) E file want_tables :
  (forall b, P (CallFitzOpen b)) ->
  (forall c, Spec.is_ocr_call c -> P c) ->
  (want_tables = true -> PLUMBER_OK E = true ->
   forall c, Spec.is_table_call c -> P c) ->
  Forall P (log_of (extract E file want_tables)).
Proof.
  intros Hf Ho Ht. unfold log_of, extract.
  apply bind_log_forall; [apply lift_log|]. intros file_bytes.
  destruct (_ =? "application/pdf")%string.
  - now apply extract_pdf_log.
  - destruct (_ =? "image")%string; [|constructor].
    eapply Forall_impl; [|apply extract_image_log]. exact Ho.
Qed.

(** X2: the table extractor is reached only on request: when the caller
    passes [want_tables = false], or the table capability is absent, no
    call of a whole request goes to the table extractor, whatever the
    outcome, and a successful response carries no table. *)
Theorem tables_only_on_request E file want_tables :
  want_tables = false \/ PLUMBER_OK E = false ->
  Forall (fun c => ~ Spec.is_table_call c)
         (log_of (extract E file want_tables)) /\
  (forall l r,
     extract E file want_tables = (l, Ok (mkJSON 200 (Extraction r))) ->
     tables r = []).
Proof.
  intros Hoff. split.
  - apply extract_log.
    + intros b H. exact H.
    + intros [] Hc H; try exact H; exact Hc.
    + intros Hw Hp. destruct Hoff; congruence.
  - intros l r H.
    destruct (read file) as [file_bytes|e] eqn:Hr;
      [|unfold extract in H; rewrite Hr in H; discriminate H].
    rewrite (extract_dispatch E file want_tables file_bytes Hr) in H.
    destruct (Spec.media_kind (or_default (filename file) "uploaded"));
      unfold Spec.run_branch in H.
    + unfold extract_pdf in H.
      apply bind_ok in H. destruct H as (l1 & doc & l2 & _ & H & _).
      apply bind_ok in H.
      destruct H as (l3 & [[[engine txt] bs] ts] & l4 & Hsel & H & _).
      inversion H; subst; clear H. simpl.
      destruct (negb (Qle_bool (_page_text_ratio doc) (1 # 10))).
      * apply bind_ok in Hsel. destruct Hsel as (? & p & ? & _ & Hsel & _).
        apply bind_ok in Hsel. destruct Hsel as (? & ts' & ? & Hts & Hsel & _).
        inversion Hsel; subst; clear Hsel.
        destruct Hoff as [-> | Hp]; [now inversion Hts|].
        rewrite Hp in Hts. destruct want_tables; now inversion Hts.
      * apply bind_ok in Hsel. destruct Hsel as (? & p & ? & _ & Hsel & _).
        now inversion Hsel.
    + apply extract_image_ok in H. destruct H as (blk & ->). reflexivity.
    + unfold extract_unsupported, ret in H. inversion H.
Qed.

Lemma tables_only_on_request_witness :
  Forall (fun c => ~ Spec.is_table_call c)
    (log_of (extract Fixtures.digital_tables_env
                     (Fixtures.upload "a.pdf" "%PDF-1.7") false)) /\
  (forall l r,
     extract Fixtures.digital_tables_env
             (Fixtures.upload "a.pdf" "%PDF-1.7") false =
       (l, Ok (mkJSON 200 (Extraction r))) ->
     tables r = []).
Proof.
  apply (tables_only_on_request Fixtures.digital_tables_env
           (Fixtures.upload "a.pdf" "%PDF-1.7") false).
  left. reflexivity.
Defined.

(** Scenario E: the same digital PDF asked with and without tables. *)
Example scenario_E :
  (exists r,
     extract Fixtures.digital_tables_env
             (Fixtures.upload "a.pdf" "%PDF-1.7") false =
       ([CallFitzOpen "%PDF-1.7"], Ok (mkJSON 200 (Extraction r))) /\
     tables r = [] /\ metadata_engine r = Some "pymupdf") /\
  (exists r,
     extract Fixtures.digital_tables_env
             (Fixtures.upload "a.pdf" "%PDF-1.7") true =
       ([CallFitzOpen "%PDF-1.7"; CallPlumberOpen "%PDF-1.7";
         CallFindTables 0 LinesStrategy; CallFindTables 0 TextStrategy],
        Ok (mkJSON 200 (Extraction r))) /\
     tables r = [mkTable 1 [["a"; ""]] "pdfplumber";
                 mkTable 1 [["a"; ""]] "pdfplumber"]).
Proof.
  split; eexists; (split; [vm_compute; reflexivity|]); repeat split.
Qed.

(** ** The shape of a successful response *)

Lemma log_of_run {A} (m : M A) l r : m = (l, r) -> log_of m = l.
Proof. intros ->. reflexivity. Qed.

(** X3: a successful response of the main service has one of three
    shapes.  An image: type "image", no verdict, one page, no table, engine
    "ocr", and only raster/OCR calls.  A digital PDF: verdict true, engine
    "pymupdf", and after the PDF parser only table-extractor calls (no OCR
    engine is reached).  A scanned PDF: verdict false, engine "ocr", no
    table, and after the PDF parser only raster/OCR calls.  The file name is
    echoed, "uploaded" standing for a missing one. *)
Theorem response_shape E file want_tables l r :
  extract E file want_tables = (l, Ok (mkJSON 200 (Extraction r))) ->
  file_name r = or_default (filename file) "uploaded" /\
  ((mime_type r = Some "image" /\ is_digital_pdf r = None /\ pages r = 1 /\
    tables r = [] /\ metadata_engine r = Some "ocr" /\
    Forall Spec.is_ocr_call l) \/
   (mime_type r = Some "application/pdf" /\ is_digital_pdf r = Some true /\
    metadata_engine r = Some "pymupdf" /\
    exists file_bytes rest,
      l = CallFitzOpen file_bytes :: rest /\ Forall Spec.is_table_call rest) \/
   (mime_type r = Some "application/pdf" /\ is_digital_pdf r = Some false /\
    metadata_engine r = Some "ocr" /\ tables r = [] /\
    exists file_bytes rest,
      l = CallFitzOpen file_bytes :: rest /\ Forall Spec.is_ocr_call rest)).
Proof.
  intros H.
  destruct (read file) as [file_bytes|e] eqn:Hr;
    [|unfold extract in H; rewrite Hr in H; discriminate H].
  rewrite (extract_dispatch E file want_tables file_bytes Hr) in H.
  destruct (Spec.media_kind (or_default (filename file) "uploaded"));
    unfold Spec.run_branch in H.
  - unfold extract_pdf in H.
    apply bind_ok in H. destruct H as (l1 & doc & l2 & Hopen & H & ->).
    unfold call in Hopen. inversion Hopen; subst l1; clear Hopen.
    apply bind_ok in H.
    destruct H as (l3 & [[[engine txt] bs] ts] & l4 & Hsel & H & ->).
    inversion H; subst; clear H. simpl. split; [reflexivity|]. right.
    rewrite app_nil_r.
    destruct (negb (Qle_bool (_page_text_ratio doc) (1 # 10))).
    + left. apply bind_ok in Hsel.
      destruct Hsel as (la & p & lb & Hp & Hsel & ->).
      apply bind_ok in Hsel. destruct Hsel as (lc & ts' & ld & Hts & Hsel & ->).
      inversion Hsel; subst; clear Hsel.
      apply log_of_run in Hp. rewrite digital_log in Hp. subst la.
      repeat split. exists file_bytes. eexists. split; [reflexivity|].
      simpl. rewrite app_nil_r.
      destruct want_tables; [|inversion Hts; constructor].
      destruct (PLUMBER_OK E); [|inversion Hts; constructor].
      apply log_of_run in Hts. rewrite <- Hts. apply tables_log.
    + right. apply bind_ok in Hsel.
      destruct Hsel as (la & p & lb & Hp & Hsel & ->).
      inversion Hsel; subst; clear Hsel.
      repeat split. exists file_bytes. eexists. split; [reflexivity|].
      rewrite app_nil_r. apply log_of_run in Hp. rewrite <- Hp.
      apply scanned_log.
  - pose proof (extract_image_log E (or_default (filename file) "uploaded")
                  "image" file_bytes) as Hlog.
    rewrite (log_of_run _ _ _ H) in Hlog.
    apply extract_image_ok in H. destruct H as (blk & ->). simpl.
    split; [reflexivity|]. left. repeat split. exact Hlog.
  - unfold extract_unsupported, ret in H. inversion H.
Qed.

Lemma response_shape_witness :
  exists l r,
    extract Fixtures.both_env (Fixtures.upload "scan.pdf" "%PDF-1.7") true =
      (l, Ok (mkJSON 200 (Extraction r))) /\
    file_name r = "scan.pdf" /\ is_digital_pdf r = Some false /\
    tables r = [].
Proof.
  destruct (extract Fixtures.both_env (Fixtures.upload "scan.pdf" "%PDF-1.7")
              true) as [l [[st [r|kv]]|e]] eqn:Hrun;
    try (vm_compute in Hrun; discriminate Hrun).
  assert (st = 200) as -> by (vm_compute in Hrun; now inversion Hrun).
  destruct (response_shape Fixtures.both_env
              (Fixtures.upload "scan.pdf" "%PDF-1.7") true l r Hrun)
    as (Hn & [H | [H | H]]).
  - exfalso. destruct H as (_ & H & _). vm_compute in Hrun.
    inversion Hrun; subst. discriminate H.
  - exfalso. destruct H as (_ & H & _). vm_compute in Hrun.
    inversion Hrun; subst. discriminate H.
  - exists l, r. destruct H as (_ & Hd & _ & Ht & _). auto.
Defined.

(** ** Page numbers of the blocks *)

Lemma tag_pages_range bss : forall start,
  Forall (fun b => exists p, b_page b = Some p /\
                             start < p <= start + length bss)
         (Spec.tag_pages start bss).
Proof.
  induction bss as [|bs bss IH]; intros start; [constructor|].
  rewrite tag_pages_cons. apply Forall_app. split.
  - apply Forall_forall. intros b Hb. apply in_map_iff in Hb.
    destruct Hb as (b0 & <- & _). exists (start + 1). simpl. split; [reflexivity | lia].
  - eapply Forall_impl; [|apply (IH (S start))].
    intros b (p & Hp & Hr). exists p. simpl. split; [exact Hp | lia].
Qed.

Lemma sorted_app (xs ys : list nat) :
  StronglySorted le xs -> StronglySorted le ys ->
  (forall x y, In x xs -> In y ys -> x <= y) ->
  StronglySorted le (xs ++ ys).
Proof.
  intros Hx Hy Hxy. induction Hx as [|x xs Hs IH Hall]; [exact Hy|].
  simpl. constructor.
  - apply IH. intros a b Ha Hb. apply Hxy; [now right | exact Hb].
  - apply Forall_app. split; [exact Hall|].
    apply Forall_forall. intros y Hin. apply Hxy; [now left | exact Hin].
Qed.

Lemma sorted_constant (n : nat) (xs : list nat) :
  Forall (fun x => x = n) xs -> StronglySorted le xs.
Proof.
  induction 1 as [|x xs -> Hall IH]; constructor; [exact IH|].
  eapply Forall_impl; [|exact Hall]. intros y ->. lia.
Qed.

Lemma tag_pages_sorted bss : forall start,
  StronglySorted le (map Spec.page_no (Spec.tag_pages start bss)).
Proof.
  induction bss as [|bs bss IH]; intros start; [constructor|].
  rewrite tag_pages_cons, map_app.
  assert (Hhead : Forall (fun x => x = start + 1)
                    (map Spec.page_no (map (set_page (start + 1)) bs))).
  { apply Forall_forall. intros x Hx. apply in_map_iff in Hx.
    destruct Hx as (b & <- & Hb). apply in_map_iff in Hb.
    destruct Hb as (b0 & <- & _). reflexivity. }
  apply sorted_app; [now apply (sorted_constant (start + 1)) | apply IH |].
  intros x y Hx Hy.
  rewrite (proj1 (Forall_forall _ _) Hhead x Hx).
  apply in_map_iff in Hy. destruct Hy as (b & <- & Hb).
  pose proof (proj1 (Forall_forall _ _) (tag_pages_range bss (S start)) b Hb)
    as (p & Hp & Hr).
  unfold Spec.page_no. rewrite Hp. lia.
Qed.

Lemma set_page_span_block pno span :
  set_page (pno + 1) (Spec.span_block 0 span) = Spec.span_block pno span.
Proof.
  unfold Spec.span_block, set_page.
  destruct (span_bbox span) as [[[x0 y0] x1] y1]. reflexivity.
Qed.

Lemma digital_blocks_tagged ps : forall start,
  Spec.digital_blocks start ps =
  Spec.tag_pages start
    (map (fun p => map (Spec.span_block 0) (Spec.page_spans p)) ps).
Proof.
  unfold Spec.digital_blocks, Spec.tag_pages.
  induction ps as [|p ps IH]; intros start; simpl; [reflexivity|].
  rewrite IH. f_equal. rewrite map_map. apply map_ext. intros span.
  symmetry. apply set_page_span_block.
Qed.

(** The blocks of a successful response are per-page lists, tagged with
    the page numbers 1..pages in order. *)
Lemma response_blocks_tagged E file want_tables l r :
  extract E file want_tables = (l, Ok (mkJSON 200 (Extraction r))) ->
  exists bss, length bss = pages r /\ blocks r = Spec.tag_pages 0 bss.
Proof.
  intros H.
  destruct (read file) as [file_bytes|e] eqn:Hr;
    [|unfold extract in H; rewrite Hr in H; discriminate H].
  rewrite (extract_dispatch E file want_tables file_bytes Hr) in H.
  destruct (Spec.media_kind (or_default (filename file) "uploaded"));
    unfold Spec.run_branch in H.
  - apply extract_pdf_ok in H. destruct H as (doc & Hopen & [Hd | Hs]).
    + destruct Hd as (l1 & p & ts & Hp & Hresp).
      inversion Hresp; subst r; clear Hresp. simpl.
      apply extract_digital_ok in Hp. destruct Hp as (_ & _ & Hb & _).
      rewrite Hb, digital_blocks_tagged. eexists. split; [|reflexivity].
      rewrite length_map. reflexivity.
    + destruct Hs as (l1 & p & Hp & Hresp).
      inversion Hresp; subst r; clear Hresp. simpl.
      apply extract_scanned_ok in Hp. destruct Hp as (bss & Hlen & _ & Hb & _).
      exists bss. auto.
  - apply extract_image_ok in H. destruct H as (blk & ->). simpl.
    exists [blk]. split; [reflexivity|].
    unfold Spec.tag_pages. simpl. now rewrite app_nil_r.
  - unfold extract_unsupported, ret in H. inversion H.
Qed.

(** X4: in a successful response of the main service every block carries a
    page number between 1 and [pages], and the blocks come in
    non-decreasing page order. *)
Theorem blocks_in_page_order E file want_tables l r :
  extract E file want_tables = (l, Ok (mkJSON 200 (Extraction r))) ->
  Forall (fun b => exists p, b_page b = Some p /\ 1 <= p <= pages r)
         (blocks r) /\
  StronglySorted le (map Spec.page_no (blocks r)).
Proof.
  intros H. apply response_blocks_tagged in H.
  destruct H as (bss & Hlen & ->). split.
  - eapply Forall_impl; [|apply (tag_pages_range bss 0)].
    intros b (p & Hp & Hr). exists p. split; [exact Hp | lia].
  - apply tag_pages_sorted.
Qed.

Lemma blocks_in_page_order_witness :
  StronglySorted le
    (map Spec.page_no
       [mkBlock "NovaAgent" (Fin (99 # 100)) [0; 0; 50; 10]%Q (Some 1);
        mkBlock "Invoice" (Fin (95 # 100)) [0; 20; 50; 30]%Q (Some 1);
        mkBlock "Total" (Fin (90 # 100)) [0; 40; 50; 50]%Q (Some 1)]).
Proof.
  refine (proj2 (blocks_in_page_order Fixtures.both_env
                   (Fixtures.upload "scan.pdf" "%PDF-1.7") true
                   [CallFitzOpen "%PDF-1.7"; CallImageOpen "png";
                    CallPaddle (RGBImage "png")]
                   (mkResponse "scan.pdf" (Some "application/pdf") 1
                      (Some false) "NovaAgent Invoice Total"
                      [mkBlock "NovaAgent" (Fin (99 # 100)) [0; 0; 50; 10]%Q (Some 1);
                       mkBlock "Invoice" (Fin (95 # 100)) [0; 20; 50; 30]%Q (Some 1);
                       mkBlock "Total" (Fin (90 # 100)) [0; 40; 50; 50]%Q (Some 1)]
                      [] (Some "ocr")) _)).
  vm_compute. reflexivity.
Defined.

(** ** Uploads without a name *)

(** X5: an upload whose file name is missing or empty is handled under
    the name "uploaded", which has no known suffix: once its payload is
    read the main service rejects it with status 400 and calls no
    engine. *)
Theorem nameless_upload_rejected E file want_tables file_bytes :
  read file = Ok file_bytes ->
  filename file = None \/ filename file = Some "" ->
  extract E file want_tables =
    ([], Ok (mkJSON 400
               (Fields [("error", "Unsupported file type for uploaded")]))).
Proof.
  intros Hr Hn. rewrite (extract_dispatch E file want_tables file_bytes Hr).
  destruct Hn as [-> | ->]; reflexivity.
Qed.

Lemma nameless_upload_rejected_witness :
  extract Fixtures.both_env (mkUpload None (Some "application/pdf")
                                      (Ok "%PDF-1.7")) true =
    ([], Ok (mkJSON 400
               (Fields [("error", "Unsupported file type for uploaded")]))).
Proof.
  apply (nameless_upload_rejected Fixtures.both_env _ true "%PDF-1.7").
  - reflexivity.
  - left. reflexivity.
Defined.

(** ** Rows of the secondary engine *)

Lemma truthy_strip txt : Py.truthy txt = false -> Py.strip txt = "".
Proof. destruct txt; [reflexivity | discriminate]. Qed.

Lemma blank_test txt :
  negb (Py.truthy txt) || (Py.strip txt =? "")%string = negb (Spec.nonblank txt).
Proof.
  unfold Spec.nonblank. rewrite negb_involutive.
  destruct (Py.truthy txt) eqn:Ht; [reflexivity|].
  simpl. now rewrite (truthy_strip txt Ht).
Qed.

(** One iteration of the row loop on a row with all its columns. *)
Lemma tesseract_row_complete tsv blocks i :
  Spec.columns_complete tsv -> i < length (tsv_text tsv) ->
  exists bbox,
    length bbox = 4 /\
    tesseract_row tsv blocks i =
      ([], Ok (if Spec.nonblank (nth i (tsv_text tsv) "")
               then blocks ++ [mkBlock (nth i (tsv_text tsv) "")
                                       (tesseract_conf tsv i) bbox None]
               else blocks)).
Proof.
  intros (H1 & H2 & H3 & H4) Hi. unfold tesseract_row.
  destruct (index_lt (tsv_text tsv) i Hi) as [txt Ht]. rewrite Ht.
  apply index_ok in Ht. rewrite (nth_error_nth _ _ "" Ht).
  rewrite bind_lift_ok, blank_test.
  destruct (index_lt (tsv_left tsv) i) as [x ->]; [lia|].
  destruct (index_lt (tsv_top tsv) i) as [y ->]; [lia|].
  destruct (index_lt (tsv_width tsv) i) as [w ->]; [lia|].
  destruct (index_lt (tsv_height tsv) i) as [h ->]; [lia|].
  eexists. split; [|destruct (Spec.nonblank txt); simpl;
                    try rewrite !bind_lift_ok; reflexivity].
  reflexivity.
Qed.

Lemma tesseract_rows_complete tsv xs :
  Spec.columns_complete tsv ->
  Forall (fun i => i < length (tsv_text tsv)) xs ->
  forall blocks, exists bs,
    for_each xs blocks (tesseract_row tsv) = ([], Ok (blocks ++ bs)) /\
    map b_text bs =
      filter Spec.nonblank (map (fun i => nth i (tsv_text tsv) "") xs) /\
    Forall (fun b => b_page b = None /\ length (b_bbox b) = 4) bs.
Proof.
  intros Hc. induction 1 as [|i xs Hi _ IH]; intros blocks.
  - exists []. simpl. rewrite app_nil_r. auto.
  - destruct (tesseract_row_complete tsv blocks i Hc Hi) as (bbox & Hb & Hrow).
    cbn [for_each map filter]. rewrite Hrow.
    destruct (Spec.nonblank (nth i (tsv_text tsv) "")).
    + destruct (IH (blocks ++ [mkBlock (nth i (tsv_text tsv) "")
                                       (tesseract_conf tsv i) bbox None]))
        as (bs & Hrun & Htxt & Hall).
      eexists (_ :: bs). unfold bind. rewrite Hrun, <- app_assoc.
      split; [reflexivity|]. simpl. rewrite Htxt.
      split; [reflexivity|]. constructor; [auto | exact Hall].
    + destruct (IH blocks) as (bs & Hrun & Htxt & Hall).
      exists bs. unfold bind. rewrite Hrun. auto.
Qed.

Lemma map_nth_seq {X} (l : list X) d :
  map (fun i => nth i l d) (seq 0 (length l)) = l.
Proof.
  induction l as [|a l IH]; [reflexivity|].
  cbn [length seq map nth]. f_equal.
  rewrite <- seq_shift, map_map. exact IH.
Qed.

(** X6: when every geometry column has an entry for each row, the
    secondary engine of the main service returns, without raising and with
    a single engine call, exactly the words of the text column that are not
    blank after trimming, in row order and as they stand (untrimmed); each
    block has a four-number box and no page yet. *)
Theorem secondary_engine_rows E img tsv :
  TESSERACT_OK E = true ->
  image_to_data E img = Ok tsv ->
  Spec.columns_complete tsv ->
  exists bs,
    _ocr_image_tesseract E img = ([CallTesseract img], Ok bs) /\
    map b_text bs = filter Spec.nonblank (tsv_text tsv) /\
    Forall (fun b => b_page b = None /\ length (b_bbox b) = 4) bs.
Proof.
  intros Hok Hd Hc. rewrite (tesseract_run E img tsv Hok Hd).
  destruct (tesseract_rows_complete tsv (seq 0 (length (tsv_text tsv))) Hc)
    with (blocks := @nil TextBlock) as (bs & Hrun & Htxt & Hall).
  - apply Forall_forall. intros i Hi. apply in_seq in Hi. lia.
  - exists bs. rewrite Hrun. simpl. rewrite map_nth_seq in Htxt. auto.
Qed.

Lemma secondary_engine_rows_witness :
  exists bs,
    _ocr_image_tesseract (Fixtures.tess_env Fixtures.tsv_page) Fixtures.img0 =
      ([CallTesseract Fixtures.img0], Ok bs) /\
    map b_text bs = ["Total"; "42.00"].
Proof.
  destruct (secondary_engine_rows (Fixtures.tess_env Fixtures.tsv_page)
              Fixtures.img0 Fixtures.tsv_page eq_refl eq_refl)
    as (bs & Hrun & Htxt & _).
  - unfold Spec.columns_complete. simpl. lia.
  - exists bs. split; [exact Hrun | exact Htxt].
Defined.

(** ** Sign of the stored confidence *)

Lemma tesseract_conf_nonneg tsv i : Spec.conf_nonneg (tesseract_conf tsv i).
Proof.
  unfold tesseract_conf.
  set (conf := match nth_error (tsv_conf tsv) i with
               | Some v => match PyFloat.of_val v with
                           | Some f => f
                           | None => Fin (-1)%Q
                           end
               | None => Fin (-1)%Q
               end).
  destruct (PyFloat.gtb conf 1) eqn:G; [|simpl; discriminate].
  destruct conf as [q| | |]; try discriminate; [|exact I].
  simpl. apply gtb_true_lt in G. unfold Qdiv.
  apply Qmult_le_0_compat; [|discriminate].
  apply Qlt_le_weak. eapply Qlt_trans; [|exact G]. reflexivity.
Qed.

(** X7: whatever the engine reports as confidence (a number, a string, a
    missing entry, the -1 sentinel, NaN), the confidence the main service
    stores for a block of the secondary engine is never negative and never
    NaN. *)
Theorem secondary_confidence_nonneg E img l bs :
  _ocr_image_tesseract E img = (l, Ok bs) ->
  Forall (fun b => Spec.conf_nonneg (b_confidence b)) bs.
Proof.
  intros H. destruct (TESSERACT_OK E) eqn:Hok.
  - destruct (main_tesseract_data E img l bs Hok H) as [tsv Hd].
    apply (tesseract_blocks_forall _ E img tsv l bs Hok Hd); [|exact H].
    intros i txt bbox _ _. apply tesseract_conf_nonneg.
  - rewrite (main_tesseract_unavailable E img l bs Hok H). constructor.
Qed.

Lemma secondary_confidence_nonneg_witness :
  Forall (fun b => Spec.conf_nonneg (b_confidence b))
    [mkBlock "Invoice" (Fin (87 # 100)) [10; 20; 80; 32]%Q None;
     mkBlock "Total" (Fin 0%Q) [90; 20; 130; 32]%Q None].
Proof.
  apply (secondary_confidence_nonneg
           (Fixtures.tess_env Fixtures.tsv_scenario_C) Fixtures.img0
           [CallTesseract Fixtures.img0]).
  vm_compute. reflexivity.
Defined.

(** ** Emitted tables *)

Lemma clean_cell_trimmed cell : Py.strip (clean_cell cell) = clean_cell cell.
Proof. destruct cell; simpl; apply strip_idem. Qed.

Lemma convert_tables_forall (P : Table -> Prop) p_idx :
  (forall r m,
     Forall (Forall (fun cell => Py.strip cell = cell)) (r :: m) ->
     P (mkTable (p_idx + 1) (r :: m) "pdfplumber")) ->
  forall ts acc, Forall P acc -> Forall P (fst (convert_tables p_idx ts acc)).
Proof.
  intros HP ts. induction ts as [|t ts IH]; intros acc Hacc; simpl;
    [exact Hacc|].
  destruct t as [t|]; [|now apply IH].
  destruct (pt_cells t); [now apply IH|].
  destruct (pt_extract t) as [rows|e]; [|exact Hacc].
  destruct (map (map clean_cell) rows) as [|r m] eqn:Hm; [now apply IH|].
  apply IH. apply Forall_app. split; [exact Hacc|].
  constructor; [|constructor]. apply HP. rewrite <- Hm.
  apply Forall_forall. intros row Hrow. apply in_map_iff in Hrow.
  destruct Hrow as (row0 & <- & _).
  apply Forall_forall. intros cell Hcell. apply in_map_iff in Hcell.
  destruct Hcell as (c0 & <- & _). apply clean_cell_trimmed.
Qed.

Lemma enumerate_bound {X} (xs : list X) : forall start i x,
  In (i, x) (enumerate start xs) -> start <= i < start + length xs.
Proof.
  induction xs as [|a xs IH]; intros start i x H; simpl in H; [destruct H|].
  destruct H as [H|H].
  - inversion H; subst. simpl. lia.
  - apply IH in H. simpl. lia.
Qed.

(** X8: every table the extractor emits for a document of [n] pages has a
    page number between 1 and [n], a non-empty row matrix, the strategy
    label "pdfplumber", and only cells that are trimmed of surrounding
    whitespace (a missing cell being the empty string). *)
Theorem tables_well_formed E file_bytes pdf_pages l ts :
  PLUMBER_OK E = true ->
  plumber_open E file_bytes = Ok pdf_pages ->
  _extract_tables_plumber E file_bytes = (l, Ok ts) ->
  Forall (Spec.table_ok (length pdf_pages)) ts.
Proof.
  intros Hok Hopen H.
  rewrite (extract_tables_run E file_bytes pdf_pages Hok Hopen) in H.
  inversion H as [[Hl Hts]]. clear H Hl Hts.
  apply Forall_forall. intros t Ht. apply in_flat_map in Ht.
  destruct Ht as ([p_idx page] & Hin & Ht).
  apply enumerate_bound in Hin. revert t Ht. apply Forall_forall.
  unfold Spec.page_contribution.
  destruct (find_tables page LinesStrategy) as [a|e]; [|constructor].
  destruct (find_tables page TextStrategy) as [b|e]; [|constructor].
  apply convert_tables_forall; [|constructor].
  intros r m Hcells. unfold Spec.table_ok. simpl.
  repeat split; try lia; try discriminate. exact Hcells.
Qed.

Lemma tables_well_formed_witness :
  Forall (Spec.table_ok 2)
    [mkTable 2 [["a"; ""]] "pdfplumber"; mkTable 2 [["a"; ""]] "pdfplumber"].
Proof.
  apply (tables_well_formed
           (Fixtures.plumber_env [Fixtures.page_text_fails; Fixtures.page_both])
           "%PDF-1.7" [Fixtures.page_text_fails; Fixtures.page_both]
           [CallPlumberOpen "%PDF-1.7";
            CallFindTables 0 LinesStrategy; CallFindTables 0 TextStrategy;
            CallFindTables 1 LinesStrategy; CallFindTables 1 TextStrategy]).
  - reflexivity.
  - reflexivity.
  - vm_compute. reflexivity.
Defined.

(** X9: table extraction never lets an exception out, whatever the
    engine does: it always returns a list, which is empty with no engine
    call when the capability is absent and empty after the one failed call
    when the document cannot be opened. *)
Theorem tables_never_raise E file_bytes :
  (exists ts, outcome (_extract_tables_plumber E file_bytes) = Ok ts) /\
  (PLUMBER_OK E = false ->
   _extract_tables_plumber E file_bytes = ([], Ok [])) /\
  (forall e, PLUMBER_OK E = true ->
     plumber_open E file_bytes = Raise e ->
     _extract_tables_plumber E file_bytes =
       ([CallPlumberOpen file_bytes], Ok [])).
Proof.
  split; [apply extract_tables_total|]. split.
  - intros H. unfold _extract_tables_plumber. now rewrite H.
  - intros e Hok H. unfold _extract_tables_plumber. now rewrite Hok, H.
Qed.

Lemma tables_never_raise_witness :
  _extract_tables_plumber Fixtures.bare_env "%PDF-1.7" = ([], Ok []).
Proof.
  apply (proj1 (proj2 (tables_never_raise Fixtures.bare_env "%PDF-1.7"))).
  reflexivity.
Defined.

(** ** The simplified service *)

Lemma simple_tesseract_total E img :
  exists l bs, SimpleOcrService._ocr_image_tesseract E img = (l, Ok bs).
Proof.
  unfold SimpleOcrService._ocr_image_tesseract.
  destruct (negb (TESSERACT_OK E)); [do 2 eexists; reflexivity|].
  unfold try_except.
  match goal with |- context [match ?m with _ => _ end] =>
    destruct m as [l [bs|e]] end; do 2 eexists; reflexivity.
Qed.

(** X10: the simplified service never lets an exception out: every
    request is answered, either with status 200 and an extraction, or with
    status 400, 500 or 501 and a body that has an "error" field. *)
Theorem simple_service_always_answers E (file : option UploadFile) :
  exists l resp,
    SimpleOcrService.extract_text E file = (l, Ok resp) /\
    ((status_code resp = 200 /\ exists r, content resp = Extraction r) \/
     ((status_code resp = 400 \/ status_code resp = 500 \/
       status_code resp = 501) /\
      exists msg, error_of resp = Some msg)).
Proof.
  unfold SimpleOcrService.extract_text.
  destruct file as [file|];
    [|do 2 eexists; split; [reflexivity|]; right; split; [auto | eexists; reflexivity]].
  destruct (read file) as [file_bytes|e];
    [|do 2 eexists; split; [reflexivity|]; right; split; [auto | eexists; reflexivity]].
  destruct (Py.startswith _ "image/").
  - destruct (negb (TESSERACT_OK E));
      [do 2 eexists; split; [reflexivity|]; right; split; [auto | eexists; reflexivity]|].
    destruct (image_open E file_bytes) as [img|e].
    + rewrite bind_call_ok.
      destruct (simple_tesseract_total E img) as (l & bs & Hrun).
      rewrite Hrun. unfold bind, ret, try_except. simpl.
      do 2 eexists. split; [reflexivity|]. left. split; [reflexivity|].
      eexists; reflexivity.
    + do 2 eexists. split; [reflexivity|]. right.
      split; [auto | eexists; reflexivity].
  - destruct (_ =? "application/pdf")%string;
      do 2 eexists; (split; [reflexivity|]); right;
      (split; [auto | eexists; reflexivity]).
Qed.

Lemma simple_nonblank_forall E img l bs :
  SimpleOcrService._ocr_image_tesseract E img = (l, Ok bs) ->
  Forall (fun b => Spec.text_nonblank b /\ b_page b = Some 1) bs.
Proof.
  apply simple_blocks_forall.
  intros data i raw v conf bbox _ _ Hs _ _. split; [|reflexivity].
  unfold Spec.text_nonblank. simpl. now rewrite strip_idem.
Qed.

Lemma simple_merge_all bs :
  Forall (fun b => Spec.text_nonblank b /\ b_page b = Some 1) bs ->
  SimpleOcrService._merge_blocks_to_text bs = Py.join Py.NL (map b_text bs).
Proof.
  intros H. unfold SimpleOcrService._merge_blocks_to_text. f_equal. f_equal.
  induction H as [|b bs [Hb _] _ IH]; simpl; [reflexivity|].
  apply truthy_iff in Hb. now rewrite Hb, IH.
Qed.

(** X11: in every extraction the simplified service returns, the text is
    exactly the newline join of the texts of all its blocks, in order; the
    response has one page, no verdict, no table and the engine label
    "tesseract", and each block has non-blank text and page 1. *)
Theorem simple_text_is_join_of_blocks E file l resp r :
  SimpleOcrService.extract_text E file = (l, Ok resp) ->
  content resp = Extraction r ->
  status_code resp = 200 /\
  text r = Py.join Py.NL (map b_text (blocks r)) /\
  pages r = 1 /\ is_digital_pdf r = None /\ tables r = [] /\
  metadata_engine r = Some "tesseract" /\
  Forall (fun b => Spec.text_nonblank b /\ b_page b = Some 1) (blocks r).
Proof.
  unfold SimpleOcrService.extract_text. intros H Hc.
  destruct file as [file|]; [|inversion H; subst; discriminate Hc].
  destruct (read file) as [file_bytes|e];
    [|inversion H; subst; discriminate Hc].
  destruct (Py.startswith _ "image/").
  - destruct (negb (TESSERACT_OK E)); [inversion H; subst; discriminate Hc|].
    apply try_except_ok in H.
    destruct H as [H | (l1 & e & l2 & _ & H & _)];
      [|inversion H; subst; discriminate Hc].
    apply bind_ok in H. destruct H as (l1 & img & l2 & _ & H & _).
    apply bind_ok in H. destruct H as (l3 & bs & l4 & Hbs & H & _).
    inversion H; subst; clear H. simpl in Hc. inversion Hc; subst; clear Hc.
    simpl. apply simple_nonblank_forall in Hbs.
    repeat split; try exact Hbs. now apply simple_merge_all.
  - destruct (_ =? "application/pdf")%string;
      inversion H; subst; discriminate Hc.
Qed.

Lemma simple_text_is_join_of_blocks_witness :
  exists l resp r,
    SimpleOcrService.extract_text
      (Fixtures.tess_env Fixtures.tsv_two_words)
      (Some (Fixtures.typed_upload "scan.png" "image/png" "PNG")) =
      (l, Ok resp) /\
    content resp = Extraction r /\
    map b_text (blocks r) = ["Total"; "42.00"] /\
    text r = Py.join Py.NL (map b_text (blocks r)).
Proof.
  destruct (SimpleOcrService.extract_text
              (Fixtures.tess_env Fixtures.tsv_two_words)
              (Some (Fixtures.typed_upload "scan.png" "image/png" "PNG")))
    as [l [[st [r|kv]]|e]] eqn:Hrun;
    try (vm_compute in Hrun; discriminate Hrun).
  exists l, (mkJSON st (Extraction r)), r.
  split; [reflexivity|]. split; [reflexivity|]. split.
  - vm_compute in Hrun. inversion Hrun. reflexivity.
  - exact (proj1 (proj2 (simple_text_is_join_of_blocks _ _ _ _ r Hrun eq_refl))).
Defined.

(** A loop raises as soon as one of its iterations raises from every
    state. *)
Lemma for_each_raises {S X} (body : S -> X -> M S) x :
  (forall st, exists l e, body st x = (l, Raise e)) ->
  forall xs st, In x xs ->
    exists l e, for_each xs st body = (l, Raise e).
Proof.
  intros Hx xs. induction xs as [|y xs IH]; intros st Hin; [destruct Hin|].
  simpl. destruct Hin as [-> | Hin].
  - destruct (Hx st) as (l & e & ->). do 2 eexists. reflexivity.
  - destruct (body st y) as [l [st'|e]]; [|do 2 eexists; reflexivity].
    destruct (IH st' Hin) as (l' & e' & H). unfold bind. rewrite H.
    do 2 eexists. reflexivity.
Qed.

Lemma simple_row_log data st i :
  fst (SimpleOcrService.tesseract_row data st i) = [].
Proof.
  unfold SimpleOcrService.tesseract_row. apply bind_lift_log. intros raw.
  destruct (Py.truthy (Py.strip raw)); [|reflexivity].
  repeat (apply bind_lift_log; intros ?). reflexivity.
Qed.

Lemma simple_row_raises data i raw :
  nth_error (tsv_text data) i = Some raw ->
  Py.strip raw <> "" ->
  (forall v, nth_error (tsv_conf data) i = Some v ->
             PyFloat.val_div v 100 = None) ->
  forall st, exists l e,
    SimpleOcrService.tesseract_row data st i = (l, Raise e).
Proof.
  intros Ht Hs Hv st. unfold SimpleOcrService.tesseract_row.
  apply index_ok in Ht. rewrite Ht, bind_lift_ok.
  apply truthy_iff in Hs. rewrite Hs.
  destruct (index (tsv_left data) i); [|do 2 eexists; reflexivity].
  rewrite bind_lift_ok.
  destruct (index (tsv_top data) i); [|do 2 eexists; reflexivity].
  rewrite bind_lift_ok.
  destruct (index (tsv_width data) i); [|do 2 eexists; reflexivity].
  rewrite bind_lift_ok.
  destruct (index (tsv_height data) i); [|do 2 eexists; reflexivity].
  rewrite bind_lift_ok.
  destruct (index (tsv_conf data) i) as [v|] eqn:Hc;
    [|do 2 eexists; reflexivity].
  rewrite bind_lift_ok. apply index_ok in Hc.
  unfold SimpleOcrService.div_100. rewrite (Hv v Hc).
  do 2 eexists. reflexivity.
Qed.

(** X12: in the simplified service one word whose confidence cannot be
    divided (a string, a missing entry) costs the whole page: when some
    non-blank row has such a confidence the engine wrapper returns no block
    at all, after its single engine call, and raises nothing. *)
Theorem simple_bad_confidence_drops_all E img data i raw :
  TESSERACT_OK E = true ->
  image_to_data E img = Ok data ->
  nth_error (tsv_text data) i = Some raw ->
  Py.strip raw <> "" ->
  (forall v, nth_error (tsv_conf data) i = Some v ->
             PyFloat.val_div v 100 = None) ->
  SimpleOcrService._ocr_image_tesseract E img = ([CallTesseract img], Ok []).
Proof.
  intros Hok Hd Ht Hs Hv. unfold SimpleOcrService._ocr_image_tesseract.
  rewrite Hok, Hd. simpl negb. cbv iota. rewrite bind_call_ok.
  assert (Hin : In i (seq 0 (length (tsv_text data)))).
  { apply in_seq. split; [lia|]. simpl. apply nth_error_Some. congruence. }
  destruct (for_each_raises (SimpleOcrService.tesseract_row data) i
              (simple_row_raises data i raw Ht Hs Hv)
              (seq 0 (length (tsv_text data))) [] Hin) as (l & e & Hrun).
  pose proof (for_each_log_nil (SimpleOcrService.tesseract_row data)
                (simple_row_log data) (seq 0 (length (tsv_text data))) [])
    as Hlog.
  rewrite Hrun in *. simpl in Hlog. subst l. reflexivity.
Qed.

Lemma simple_bad_confidence_drops_all_witness :
  SimpleOcrService._ocr_image_tesseract
    (Fixtures.tess_env Fixtures.tsv_string_conf) Fixtures.img0 =
  ([CallTesseract Fixtures.img0], Ok []).
Proof.
  apply (simple_bad_confidence_drops_all
           (Fixtures.tess_env Fixtures.tsv_string_conf) Fixtures.img0
           Fixtures.tsv_string_conf 1 "42.00").
  - reflexivity.
  - reflexivity.
  - reflexivity.
  - discriminate.
  - intros v Hv. inversion Hv. reflexivity.
Defined.

(** ** Payloads that cannot be read or decoded *)

(** X13: the main service does not catch a failing read or decode: the
    exception of [file.read()], of the PDF parser or of the image decoder
    escapes [extract], after at most that one engine call.  The simplified
    service answers the same failures itself, with status 400 ("Failed to
    read file: ...") for the read and status 500 ("OCR processing failed:
    ...") for the decoder. *)
Theorem unreadable_payload E file want_tables e :
  let fname := or_default (filename file) "uploaded" in
  let mime := or_default (content_type file) "application/octet-stream" in
  (read file = Raise e ->
   extract E file want_tables = ([], Raise e) /\
   SimpleOcrService.extract_text E (Some file) =
     ([], Ok (mkJSON 400 (Fields
        [("error", ("Failed to read file: " ++ exn_str e)%string)])))) /\
  (forall file_bytes, read file = Ok file_bytes ->
     (Spec.media_kind fname = Spec.KPdf ->
      fitz_open E file_bytes = Raise e ->
      extract E file want_tables = ([CallFitzOpen file_bytes], Raise e)) /\
     (Spec.media_kind fname = Spec.KImage ->
      PADDLE_OK E || TESSERACT_OK E = true ->
      image_open E file_bytes = Raise e ->
      extract E file want_tables = ([CallImageOpen file_bytes], Raise e)) /\
     (Spec.simple_kind mime = Spec.KImage ->
      TESSERACT_OK E = true ->
      image_open E file_bytes = Raise e ->
      SimpleOcrService.extract_text E (Some file) =
        ([CallImageOpen file_bytes],
         Ok (mkJSON 500 (Fields
           [("error", ("OCR processing failed: " ++ exn_str e)%string)]))))).
Proof.
  intros fname mime. split.
  - intros Hr. split.
    + unfold extract. now rewrite Hr.
    + unfold SimpleOcrService.extract_text. now rewrite Hr.
  - intros file_bytes Hr. split; [|split].
    + intros Hk Hopen.
      rewrite (extract_dispatch E file want_tables file_bytes Hr).
      fold fname. rewrite Hk. unfold Spec.run_branch, extract_pdf.
      now rewrite Hopen.
    + intros Hk Hany Hopen.
      rewrite (extract_dispatch E file want_tables file_bytes Hr).
      fold fname. rewrite Hk. unfold Spec.run_branch, extract_image.
      now rewrite Hany, Hopen.
    + intros Hk Hok Hopen. unfold SimpleOcrService.extract_text.
      rewrite Hr. fold mime. unfold Spec.simple_kind in Hk.
      destruct (Py.startswith mime "image/");
        [|destruct (mime =? "application/pdf")%string; discriminate Hk].
      now rewrite Hok, Hopen.
Qed.

Lemma unreadable_payload_witness :
  extract Fixtures.bare_env (Fixtures.upload "broken.pdf" "garbage") true =
    ([CallFitzOpen "garbage"], Raise (Exception "fitz")).
Proof.
  apply (proj1 (proj2 (unreadable_payload Fixtures.bare_env
                         (Fixtures.upload "broken.pdf" "garbage") true
                         (Exception "fitz")) "garbage" eq_refl));
    reflexivity.
Defined.

(** ** The shared handle of the primary engine *)

Lemma get_paddle_cached ok ctor st h :
  ok = true -> _paddle_singleton st = Some h ->
  forall k, get_paddle_calls ok ctor k st = (st, repeat (Ok (Some h)) k).
Proof.
  intros -> Hs k. induction k as [|k IH]; simpl; [reflexivity|].
  unfold _get_paddle. simpl. rewrite Hs, IH. reflexivity.
Qed.

(** X14: [_get_paddle] builds the engine lazily and once.  Without the
    capability it returns [None] and never constructs.  Once a call has
    returned a handle, every later call returns that same handle and
    constructs nothing more; a constructor that raises leaves the global
    unset, so the next call tries again. *)
Theorem get_paddle_constructs_once ok ctor st :
  (ok = false ->
   forall k, get_paddle_calls ok ctor k st = (st, repeat (Ok None) k)) /\
  (forall st1 h,
     _get_paddle ok ctor st = (st1, Ok (Some h)) ->
     ok = true /\
     constructions st1 <= S (constructions st) /\
     forall k, get_paddle_calls ok ctor k st1 =
               (st1, repeat (Ok (Some h)) k)) /\
  (forall st1 e,
     _get_paddle ok ctor st = (st1, Raise e) ->
     _paddle_singleton st1 = None /\
     _get_paddle ok ctor st1 =
       match ctor (constructions st1) with
       | Ok h => (mkPaddleState (Some h) (S (constructions st1)), Ok (Some h))
       | Raise e' => (mkPaddleState None (S (constructions st1)), Raise e')
       end).
Proof.
  split; [|split].
  - intros -> k. induction k as [|k IH]; simpl; [reflexivity|].
    now rewrite IH.
  - intros st1 h H. unfold _get_paddle in H.
    destruct ok; simpl in H; [|discriminate H]. split; [reflexivity|].
    destruct (_paddle_singleton st) as [h0|] eqn:Hs.
    + inversion H; subst. split; [lia|]. now apply get_paddle_cached.
    + destruct (ctor (constructions st)) as [h1|e]; inversion H; subst.
      split; [simpl; lia|]. now apply get_paddle_cached.
  - intros st1 e H. unfold _get_paddle in H.
    destruct ok; simpl in H; [|discriminate H].
    destruct (_paddle_singleton st) as [h0|] eqn:Hs; [discriminate H|].
    destruct (ctor (constructions st)) as [h1|e1]; inversion H; subst.
    split; reflexivity.
Qed.

Lemma get_paddle_constructs_once_witness :
  _get_paddle true Fixtures.flaky_paddle (mkPaddleState None 1) =
    (mkPaddleState (Some (Handle 1)) 2, Ok (Some (Handle 1))) /\
  get_paddle_calls true Fixtures.flaky_paddle 3
                   (mkPaddleState (Some (Handle 1)) 2) =
    (mkPaddleState (Some (Handle 1)) 2,
     [Ok (Some (Handle 1)); Ok (Some (Handle 1)); Ok (Some (Handle 1))]).
Proof.
  split; [reflexivity|].
  pose proof (get_paddle_constructs_once true Fixtures.flaky_paddle
                (mkPaddleState None 1)) as (_ & H & _).
  exact (proj2 (proj2 (H (mkPaddleState (Some (Handle 1)) 2) (Handle 1)
                         eq_refl)) 3).
Defined.

(** A constructor that fails once: the first call raises, the second
    constructs, the later ones reuse the handle. *)
Example get_paddle_retry :
  get_paddle_calls true Fixtures.flaky_paddle 4 (mkPaddleState None 0) =
    (mkPaddleState (Some (Handle 1)) 2,
     [Raise (Exception "model download failed");
      Ok (Some (Handle 1)); Ok (Some (Handle 1)); Ok (Some (Handle 1))]).
Proof. reflexivity. Qed.

(** ** Merging block texts *)

Lemma join_nonempty_head sep s rest :
  s <> "" -> Py.join sep (s :: rest) <> "".
Proof.
  destruct s as [|c s]; [congruence|]. intros _.
  destruct rest; simpl; discriminate.
Qed.

Lemma join_app sep xs ys :
  xs <> [] -> ys <> [] ->
  Py.join sep (xs ++ ys) = (Py.join sep xs ++ sep ++ Py.join sep ys)%string.
Proof.
  intros Hx Hy. induction xs as [|x xs IH]; [congruence|].
  destruct xs as [|x' xs].
  - destruct ys as [|y ys]; [congruence|]. reflexivity.
  - change (Py.join sep ((x :: x' :: xs) ++ ys))
      with (x ++ sep ++ Py.join sep ((x' :: xs) ++ ys))%string.
    rewrite IH by discriminate.
    change (Py.join sep (x :: x' :: xs))
      with (x ++ sep ++ Py.join sep (x' :: xs))%string.
    now rewrite !string_app_assoc.
Qed.

Lemma merge_empty_iff bs :
  _merge_blocks_to_text bs = "" <->
  filter (fun b => Py.truthy (b_text b)) bs = [].
Proof.
  unfold _merge_blocks_to_text. split.
  - intros H.
    destruct (filter (fun b => Py.truthy (b_text b)) bs) as [|b rest] eqn:Hf;
      [reflexivity|].
    exfalso. revert H. simpl map. apply join_nonempty_head.
    assert (In b (filter (fun b => Py.truthy (b_text b)) bs)) as Hin
        by (rewrite Hf; now left).
    apply filter_In in Hin. now apply truthy_iff.
  - intros ->. reflexivity.
Qed.

(** X15: [_merge_blocks_to_text] yields the empty text exactly when every
    block text is empty, and it composes over concatenation: the text of
    two block lists put together is the two texts with one space between
    them, or just the other text when one of them is empty. *)
Theorem merge_blocks_compose (xs ys : list TextBlock) :
  (_merge_blocks_to_text xs = "" <-> Forall (fun b => b_text b = "") xs) /\
  _merge_blocks_to_text (xs ++ ys) =
    if (_merge_blocks_to_text xs =? "")%string then _merge_blocks_to_text ys
    else if (_merge_blocks_to_text ys =? "")%string then _merge_blocks_to_text xs
    else (_merge_blocks_to_text xs ++ " " ++ _merge_blocks_to_text ys)%string.
Proof.
  split.
  - rewrite merge_empty_iff. split.
    + intros H. apply Forall_forall. intros b Hb.
      destruct (Py.truthy (b_text b)) eqn:Ht; [|now apply truthy_false_iff].
      assert (In b (filter (fun b => Py.truthy (b_text b)) xs)) as Hin
          by (apply filter_In; auto).
      rewrite H in Hin. destruct Hin.
    + intros H. induction H as [|b xs Hb _ IH]; simpl; [reflexivity|].
      now rewrite Hb, IH.
  - destruct (_merge_blocks_to_text xs =? "")%string eqn:Hx.
    + apply String.eqb_eq, merge_empty_iff in Hx.
      unfold _merge_blocks_to_text. now rewrite filter_app, Hx.
    + destruct (_merge_blocks_to_text ys =? "")%string eqn:Hy.
      * apply String.eqb_eq, merge_empty_iff in Hy.
        unfold _merge_blocks_to_text. now rewrite filter_app, Hy, app_nil_r.
      * apply String.eqb_neq in Hx, Hy.
        unfold _merge_blocks_to_text in *. rewrite filter_app, map_app.
        apply join_app; intros H; [apply Hx | apply Hy]; now rewrite H.
Qed.

(** ** Lines of the primary engine *)

Lemma paddle_block_of_line line b :
  paddle_block line = Ok b -> Spec.block_of_line line b.
Proof.
  unfold paddle_block, to_float, Spec.block_of_line.
  destruct (pl_quad line) as [[[[x1 y1] [x2 y2]] [x3 y3]] [x4 y4]].
  destruct (PyFloat.of_val (pl_conf line)) as [f|]; [|discriminate].
  intros H. inversion H; subst. simpl. auto.
Qed.

Lemma paddle_block_convertible line :
  PyFloat.of_val (pl_conf line) <> None -> exists b, paddle_block line = Ok b.
Proof.
  unfold paddle_block, to_float.
  destruct (pl_quad line) as [[[[x1 y1] [x2 y2]] [x3 y3]] [x4 y4]].
  destruct (PyFloat.of_val (pl_conf line)) as [f|]; [|congruence].
  intros _. eexists; reflexivity.
Qed.

Lemma paddle_step_raises line :
  PyFloat.of_val (pl_conf line) = None ->
  forall st, exists l e, paddle_step st line = (l, Raise e).
Proof.
  intros H st. unfold paddle_step, paddle_block, to_float.
  destruct (pl_quad line) as [[[[x1 y1] [x2 y2]] [x3 y3]] [x4 y4]].
  rewrite H. do 2 eexists. reflexivity.
Qed.

Lemma paddle_loop_converts lines :
  Forall (fun line => PyFloat.of_val (pl_conf line) <> None) lines ->
  forall acc, exists bs,
    for_each lines acc paddle_step = ([], Ok (acc ++ bs)) /\
    Forall2 Spec.block_of_line lines bs.
Proof.
  induction 1 as [|line lines Hc _ IH]; intros acc.
  - exists []. simpl. rewrite app_nil_r. split; [reflexivity | constructor].
  - destruct (paddle_block_convertible line Hc) as [b Hb].
    destruct (IH (acc ++ [b])) as (bs & Hrun & HF).
    exists (b :: bs). simpl. unfold paddle_step at 1.
    rewrite Hb, bind_lift_ok, bind_ret, Hrun, <- app_assoc.
    split; [reflexivity|].
    constructor; [now apply paddle_block_of_line | exact HF].
Qed.

(** X16: the primary engine wrapper is all or nothing.  When every score
    converts to a float it returns one block per line, in order, with the
    line's text, the float of its score and the box of its first and third
    corner.  When some score does not convert, the wrapper raises, and so
    does the cascade: the secondary engine is a fallback for an empty
    result only, it is not tried after an exception. *)
Theorem primary_engine_all_or_nothing E img res :
  PADDLE_OK E = true ->
  paddle_ocr E img = Ok res ->
  let lines := match res with Some ls => ls | None => [] end in
  (Forall (fun line => PyFloat.of_val (pl_conf line) <> None) lines ->
   exists bs,
     _ocr_image_paddle E img = ([CallPaddle img], Ok bs) /\
     Forall2 Spec.block_of_line lines bs) /\
  (Exists (fun line => PyFloat.of_val (pl_conf line) = None) lines ->
   exists e,
     _ocr_image_paddle E img = ([CallPaddle img], Raise e) /\
     ocr_cascade E img = ([CallPaddle img], Raise e)).
Proof.
  intros Hok Hres lines. split.
  - intros Hall. destruct (paddle_loop_converts lines Hall []) as (bs & Hrun & HF).
    exists bs. split; [|exact HF].
    unfold _ocr_image_paddle. rewrite Hok, Hres. simpl negb. cbv iota.
    rewrite bind_call_ok. fold lines. rewrite Hrun. reflexivity.
  - intros Hex. apply Exists_exists in Hex. destruct Hex as (line & Hin & Hbad).
    destruct (for_each_raises paddle_step line (paddle_step_raises line Hbad)
                lines [] Hin) as (l & e & Hrun).
    pose proof (for_each_log_nil paddle_step paddle_step_log lines []) as Hlog.
    rewrite Hrun in Hlog. simpl in Hlog. subst l.
    assert (Hp : _ocr_image_paddle E img = ([CallPaddle img], Raise e)).
    { unfold _ocr_image_paddle. rewrite Hok, Hres. simpl negb. cbv iota.
      rewrite bind_call_ok. fold lines. rewrite Hrun. reflexivity. }
    exists e. split; [exact Hp|].
    apply cascade_primary_raises; [exact Hok|]. now rewrite Hp.
Qed.

Lemma primary_engine_all_or_nothing_witness :
  exists e,
    _ocr_image_paddle Fixtures.bad_score_env Fixtures.img0 =
      ([CallPaddle Fixtures.img0], Raise e) /\
    ocr_cascade Fixtures.bad_score_env Fixtures.img0 =
      ([CallPaddle Fixtures.img0], Raise e).
Proof.
  refine (proj2 (primary_engine_all_or_nothing Fixtures.bad_score_env
                   Fixtures.img0 _ eq_refl eq_refl) _).
  apply Exists_cons_tl, Exists_cons_hd. reflexivity.
Defined.

(** ** Pages of a scanned PDF *)

Lemma enumerate_in {X} (xs : list X) x : forall start,
  In x xs -> exists i, In (i, x) (enumerate start xs).
Proof.
  induction xs as [|a xs IH]; intros start Hin; [destruct Hin|].
  destruct Hin as [-> | Hin].
  - exists start. now left.
  - destruct (IH (S start) Hin) as [i Hi]. exists i. now right.
Qed.

(** X17: the PDF strategies contain no failure of a page: when rendering
    one page of a scanned document raises, the whole scanned extraction
    raises, and when reading the spans of one page of a digital document
    raises, the whole digital extraction raises; no partial result is
    returned. *)
Theorem page_failure_aborts_extraction E doc page e0 :
  In page (doc_pages doc) ->
  (get_pixmap_png page = Raise e0 ->
   exists l e, _extract_scanned_pdf E doc = (l, Raise e)) /\
  (get_text_text page = Raise e0 \/ get_text_dict page = Raise e0 ->
   exists l e, _extract_digital_pdf doc = (l, Raise e)).
Proof.
  intros Hin. destruct (enumerate_in (doc_pages doc) page 0 Hin) as [i Hi].
  split.
  - intros Hpix. unfold _extract_scanned_pdf.
    destruct (for_each_raises (scanned_page E) (i, page)) with
      (xs := enumerate 0 (doc_pages doc))
      (st := (@nil string, @nil TextBlock)) as (l & e & Hrun);
      [|exact Hi|rewrite Hrun; do 2 eexists; reflexivity].
    intros [texts ba]. unfold scanned_page. rewrite Hpix.
    do 2 eexists. reflexivity.
  - intros Hbad. unfold _extract_digital_pdf.
    destruct (for_each_raises digital_page (i, page)) with
      (xs := enumerate 0 (doc_pages doc))
      (st := (@nil string, @nil TextBlock)) as (l & e & Hrun);
      [|exact Hi|rewrite Hrun; do 2 eexists; reflexivity].
    intros [ta ba]. unfold digital_page.
    destruct (get_text_text page) as [t|et]; [|do 2 eexists; reflexivity].
    rewrite bind_lift_ok. destruct Hbad as [Hbad | Hbad];
      [discriminate Hbad|]. rewrite Hbad. do 2 eexists. reflexivity.
Qed.

Lemma page_failure_aborts_extraction_witness :
  exists l e,
    _extract_scanned_pdf Fixtures.both_env Fixtures.doc_render_fails =
      (l, Raise e).
Proof.
  refine (proj1 (page_failure_aborts_extraction Fixtures.both_env
                   Fixtures.doc_render_fails
                   (mkPage (Ok "") (Ok []) (Raise (Exception "render failed")))
                   (Exception "render failed") _) eq_refl).
  right. left. reflexivity.
Defined.






